(** * The drone agent's decision core, embedded and verified

    A shallow embedding of [agent/decision_maker.py], [agent/core.py] and
    [tools/slom.py]: the safety rules, the obstacle handler, the mission
    navigator, the geofence check, the decision pipeline of the agent, its
    state update and its mission loop.

    Python values are embedded as they are at run time: dictionaries are
    finite maps from strings, a failed operation raises an exception that the
    enclosing [try] may catch.  Numbers are IEEE-754 binary64 values, the
    representation of a Python [float]; an integer literal of the source
    stands for the float of the same value. *)

From Stdlib Require Import ZArith String List Floats Lia OrderedTypeEx Sorting.Sorted.
From stdpp Require Import base option list gmap strings.
Import ListNotations.

Set Warnings "-register-all".
Local Open Scope string_scope.

(** ** Exceptions and results *)

(** The subclasses of [Exception] the embedded code can raise, and
    [CollaboratorError] for whatever an external service raises. *)
Inductive exn : Type :=
| TypeError
| AttributeError
| KeyError
| ValueError
| ZeroDivisionError
| OverflowError
| CollaboratorError.

Inductive result (A : Type) : Type :=
| Ok (a : A)
| Raise (e : exn).

Arguments Ok {A} a.
Arguments Raise {A} e.

#[global] Instance result_ret : MRet result := fun A a => Ok a.
#[global] Instance result_bind : MBind result := fun A B f r =>
  match r with
  | Ok a => f a
  | Raise e => Raise e
  end.

(** [try: body except Exception as e: handler] *)
Definition try_except {A : Type} (body : result A) (handler : exn -> result A) : result A :=
  match body with
  | Ok a => Ok a
  | Raise e => handler e
  end.

Definition raises {A : Type} (r : result A) : bool :=
  match r with
  | Ok _ => false
  | Raise _ => true
  end.

(** ** Python values *)

Inductive pyval : Type :=
| PNone
| PBool (b : bool)
| PNum (f : float)
| PStr (s : string)
| PList (l : list pyval)
| PDict (d : gmap string pyval).

Module Py.

(** [bool(v)] *)
Definition truthy (v : pyval) : bool :=
  match v with
  | PNone => false
  | PBool b => b
  | PNum f => negb (f =? 0)%float
  | PStr s => negb (String.eqb s EmptyString)
  | PList l => negb (bool_decide (l = []))
  | PDict d => negb (bool_decide (d = ∅))
  end.

(** [v.get(k, dflt)]: only a dictionary has the attribute. *)
Definition get (v : pyval) (k : string) (dflt : pyval) : result pyval :=
  match v with
  | PDict d => Ok (default dflt (d !! k))
  | _ => Raise AttributeError
  end.

(** [v[k]] for a string key. *)
Definition item (v : pyval) (k : string) : result pyval :=
  match v with
  | PDict d =>
      match d !! k with
      | Some x => Ok x
      | None => Raise KeyError
      end
  | _ => Raise TypeError
  end.

(** The number a value denotes in arithmetic: [bool] is a subclass of
    [int]. *)
Definition number (v : pyval) : option float :=
  match v with
  | PNum f => Some f
  | PBool b => Some (if b then 1 else 0)%float
  | _ => None
  end.

(** [a < b]: numbers by value, strings by code point; any other pairing is
    reported as [TypeError] (the ordering of two lists is not modelled). *)
Definition lt (a b : pyval) : result bool :=
  match a, b with
  | PStr s, PStr t => Ok (String.ltb s t)
  | _, _ =>
      match number a, number b with
      | Some x, Some y => Ok (x <? y)%float
      | _, _ => Raise TypeError
      end
  end.

(** [a > b] *)
Definition gt (a b : pyval) : result bool := lt b a.

Definition arith (op : float -> float -> float) (a b : pyval) : result pyval :=
  match number a, number b with
  | Some x, Some y => Ok (PNum (op x y))
  | _, _ => Raise TypeError
  end.

(** [a + b] also concatenates two strings or two lists. *)
Definition add (a b : pyval) : result pyval :=
  match a, b with
  | PStr s, PStr t => Ok (PStr (s ++ t))
  | PList l, PList k => Ok (PList (l ++ k))
  | _, _ => arith PrimFloat.add a b
  end.

(** [a - b] *)
Definition sub (a b : pyval) : result pyval := arith PrimFloat.sub a b.

(** [-a] *)
Definition neg (a : pyval) : result pyval :=
  match number a with
  | Some x => Ok (PNum (- x)%float)
  | None => Raise TypeError
  end.

(** [a ** 2]: a finite float whose square is out of range raises
    [OverflowError]. *)
Definition pow2 (a : pyval) : result pyval :=
  match number a with
  | Some x =>
      let r := (x * x)%float in
      if is_infinity r && negb (is_infinity x)
      then Raise OverflowError
      else Ok (PNum r)
  | None => Raise TypeError
  end.

(** [a ** 0.5].  A negative base gives a complex number in Python, which no
    later comparison accepts; it is reported as [TypeError] at once.  The
    code only applies it to sums of squares. *)
Definition pow_half (a : pyval) : result pyval :=
  match number a with
  | Some x =>
      if (x <? 0)%float then Raise TypeError else Ok (PNum (sqrt x))
  | None => Raise TypeError
  end.

(** [a / b] *)
Definition div (a b : pyval) : result pyval :=
  match number a, number b with
  | Some x, Some y =>
      if (y =? 0)%float then Raise ZeroDivisionError else Ok (PNum (x / y)%float)
  | _, _ => Raise TypeError
  end.

(** [(a**2 + b**2) ** 0.5] *)
Definition norm2 (a b : pyval) : result pyval :=
  aa ← pow2 a;
  bb ← pow2 b;
  sum ← add aa bb;
  pow_half sum.

(** [(a**2 + b**2 + c**2) ** 0.5] *)
Definition norm3 (a b c : pyval) : result pyval :=
  aa ← pow2 a;
  bb ← pow2 b;
  ab ← add aa bb;
  cc ← pow2 c;
  sum ← add ab cc;
  pow_half sum.

Fixpoint chars (s : string) : list pyval :=
  match s with
  | EmptyString => []
  | String c s' => PStr (String c EmptyString) :: chars s'
  end.

(** What [for x in v] ranges over. *)
Definition iter (v : pyval) : result (list pyval) :=
  match v with
  | PList l => Ok l
  | PDict d => Ok (PStr <$> (map_to_list d).*1)
  | PStr s => Ok (chars s)
  | _ => Raise TypeError
  end.

(** The loop of [min(items, key=key)] after the first item: the running
    minimum is replaced only by an item whose key is strictly smaller. *)
Fixpoint min_loop (key : pyval -> result pyval) (best bestkey : pyval)
    (items : list pyval) : result pyval :=
  match items with
  | [] => Ok best
  | x :: rest =>
      k ← key x;
      smaller ← lt k bestkey;
      if (smaller : bool) then min_loop key x k rest
      else min_loop key best bestkey rest
  end.

(** [min(items, key=key)] *)
Definition min_by (key : pyval -> result pyval) (items : list pyval) : result pyval :=
  match items with
  | [] => Raise ValueError
  | x :: rest => k ← key x; min_loop key x k rest
  end.

(** [len(v)] *)
Definition len (v : pyval) : result nat :=
  match v with
  | PList l => Ok (length l)
  | PDict d => Ok (size d)
  | PStr s => Ok (String.length s)
  | _ => Raise TypeError
  end.

(** [d.update(v)]: the entries of a dictionary [v] replace those of [d];
    an empty list or string changes nothing.  A list of key-value pairs is
    not modelled and is reported as [TypeError] like any other value. *)
Definition update (d : gmap string pyval) (v : pyval) : result (gmap string pyval) :=
  match v with
  | PDict t => Ok (t ∪ d)
  | PList [] => Ok d
  | PStr EmptyString => Ok d
  | _ => Raise TypeError
  end.

(** [v in names] for a list of string literals. *)
Definition among (v : pyval) (names : list string) : bool :=
  match v with
  | PStr s => bool_decide (s ∈ names)
  | _ => false
  end.

End Py.


(** ** tools/slom.py *)

Module Slom.

Inductive SafetyLevel : Type :=
| NORMAL
| CAUTION
| WARNING
| CRITICAL
| EMERGENCY.

(** The [message] texts of the source with the value each one formats. *)
Inductive message : Type :=
| BatteryCriticalAt (battery : pyval)   (* "Критический заряд батареи: {battery}%" *)
| BatteryLowAt (battery : pyval)        (* "Низкий заряд батареи: {battery}%" *)
| SignalCriticalAt (signal : pyval)     (* "Критический уровень сигнала: {signal}%" *)
| ObstacleAt (distance : pyval)
| OutsideGeofence (distance : pyval)
| AboveMaxAltitude (altitude : pyval)
| TemperatureHigh (temperature : pyval)
| TemperatureLow (temperature : pyval).

(** The dictionary [check_emergency] returns. *)
Record emergency : Type := Emergency {
  type : string;
  severity : string;
  msg : message;
  action : string;
  params : gmap string pyval
}.

Record SlomTool : Type := Tool {
  thresholds : gmap string pyval;
  safety_level : SafetyLevel;
  geofence : pyval
}.

Definition set_level (tool : SlomTool) (level : SafetyLevel) : SlomTool :=
  Tool (thresholds tool) level (geofence tool).

(** The defaults of [__init__], used when the configuration has no [safety]
    section. *)
Definition default_thresholds : gmap string pyval :=
  {[ "battery_critical" := PNum 15; "battery_low" := PNum 25;
     "signal_critical" := PNum 20; "signal_low" := PNum 40;
     "wind_max" := PNum 15; "temperature_max" := PNum 60;
     "temperature_min" := PNum (-10); "obstacle_distance" := PNum 5;
     "max_altitude" := PNum 120; "max_distance" := PNum 1000 ]}.

Definition origin : pyval :=
  PDict {[ "x" := PNum 0; "y" := PNum 0; "z" := PNum 0 ]}.

Definition default_geofence : pyval :=
  PDict {[ "enabled" := PBool true; "center" := origin;
           "radius" := PNum 500; "max_altitude" := PNum 120 ]}.

Definition default_tool : SlomTool :=
  Tool default_thresholds NORMAL default_geofence.

(** The [distance] of [_check_geofence]: from the center, in the plane. *)
Definition planar_distance (position center : pyval) : result pyval :=
  px ← Py.get position "x" (PNum 0);
  cx ← Py.item center "x";
  dx ← Py.sub px cx;
  py ← Py.get position "y" (PNum 0);
  cy ← Py.item center "y";
  dy ← Py.sub py cy;
  Py.norm2 dx dy.

(** [_check_geofence]: the result and the safety level it leaves. *)
Definition _check_geofence (tool : SlomTool) (position : pyval)
    : SlomTool * result (option emergency) :=
  let measured : result (pyval * pyval * pyval) :=
    center ← Py.item (geofence tool) "center";
    radius ← Py.item (geofence tool) "radius";
    max_altitude ← Py.item (geofence tool) "max_altitude";
    distance ← planar_distance position center;
    Ok (distance, radius, max_altitude) in
  match measured with
  | Raise e => (tool, Raise e)
  | Ok (distance, radius, max_altitude) =>
      match Py.gt distance radius with
      | Raise e => (tool, Raise e)
      | Ok true =>
          (set_level tool WARNING,
           Ok (Some (Emergency "geofence_breach" "warning"
                       (OutsideGeofence distance) "RTL" ∅)))
      | Ok false =>
          match altitude ← Py.get position "z" (PNum 0);
                above ← Py.gt altitude max_altitude;
                Ok (altitude, above) with
          | Raise e => (tool, Raise e)
          | Ok (altitude, true) =>
              (set_level tool WARNING,
               target ← Py.sub max_altitude (PNum 10);
               Ok (Some (Emergency "geofence_breach" "warning"
                           (AboveMaxAltitude altitude) "DESCEND"
                           {[ "altitude" := target ]})))
          | Ok (_, false) => (tool, Ok None)
          end
      end
  end.

(** [check_emergency] runs its checks in order; each one either reports an
    emergency, raises, or leaves the next one to run on the tool as it left
    it. *)
Definition check : Type := SlomTool -> SlomTool * result (option emergency).

Definition and_then (first next : check) : check := fun tool =>
  match first tool with
  | (tool', Ok None) => next tool'
  | outcome => outcome
  end.

Definition threshold (tool : SlomTool) (key : string) : result pyval :=
  Py.item (PDict (thresholds tool)) key.

Definition check_battery (telemetry : pyval) : check := fun tool =>
  match battery ← Py.get telemetry "battery" (PNum 100);
        limit ← threshold tool "battery_critical";
        critical ← Py.lt battery limit;
        if (critical : bool) then Ok (battery, true, false)
        else limit ← threshold tool "battery_low";
             low ← Py.lt battery limit;
             Ok (battery, false, low) with
  | Raise e => (tool, Raise e)
  | Ok (battery, true, _) =>
      (set_level tool EMERGENCY,
       Ok (Some (Emergency "low_battery" "critical" (BatteryCriticalAt battery) "LAND" ∅)))
  | Ok (battery, false, true) =>
      (set_level tool WARNING,
       Ok (Some (Emergency "low_battery" "warning" (BatteryLowAt battery) "RTL" ∅)))
  | Ok (_, false, false) => (tool, Ok None)
  end.

Definition check_signal (telemetry : pyval) : check := fun tool =>
  match signal ← Py.get telemetry "signal_strength" (PNum 100);
        limit ← threshold tool "signal_critical";
        critical ← Py.lt signal limit;
        if (critical : bool) then Ok (signal, true, false)
        else limit ← threshold tool "signal_low";
             low ← Py.lt signal limit;
             Ok (signal, false, low) with
  | Raise e => (tool, Raise e)
  | Ok (signal, true, _) =>
      (set_level tool CRITICAL,
       Ok (Some (Emergency "signal_lost" "critical" (SignalCriticalAt signal) "RTL" ∅)))
  | Ok (_, false, true) => (set_level tool CAUTION, Ok None)
  | Ok (_, false, false) => (tool, Ok None)
  end.

Definition check_obstacle (telemetry : pyval) : check := fun tool =>
  match obstacle_distance ← Py.get telemetry "obstacle_distance" (PNum 100);
        limit ← threshold tool "obstacle_distance";
        near ← Py.lt obstacle_distance limit;
        Ok (obstacle_distance, near) with
  | Raise e => (tool, Raise e)
  | Ok (obstacle_distance, true) =>
      (set_level tool WARNING,
       Ok (Some (Emergency "obstacle_detected" "warning" (ObstacleAt obstacle_distance)
                   "HOVER" ∅)))
  | Ok (_, false) => (tool, Ok None)
  end.

Definition check_geofence_if_enabled (telemetry : pyval) : check := fun tool =>
  match enabled ← Py.item (geofence tool) "enabled";
        if Py.truthy enabled
        then position ← Py.get telemetry "position" origin; Ok (Some position)
        else Ok None with
  | Raise e => (tool, Raise e)
  | Ok (Some position) => _check_geofence tool position
  | Ok None => (tool, Ok None)
  end.

Definition check_temperature (telemetry : pyval) : check := fun tool =>
  match temperature ← Py.get telemetry "temperature" (PNum 25);
        limit ← threshold tool "temperature_max";
        high ← Py.gt temperature limit;
        if (high : bool) then Ok (temperature, true, false)
        else limit ← threshold tool "temperature_min";
             low ← Py.lt temperature limit;
             Ok (temperature, false, low) with
  | Raise e => (tool, Raise e)
  | Ok (temperature, true, _) =>
      (set_level tool WARNING,
       Ok (Some (Emergency "extreme_temperature" "warning" (TemperatureHigh temperature)
                   "LAND" ∅)))
  | Ok (temperature, false, true) =>
      (set_level tool WARNING,
       Ok (Some (Emergency "extreme_temperature" "warning" (TemperatureLow temperature)
                   "LAND" ∅)))
  | Ok (_, false, false) => (tool, Ok None)
  end.

Definition all_clear : check := fun tool => (set_level tool NORMAL, Ok None).

Definition check_emergency (tool : SlomTool) (data : pyval)
    : SlomTool * result (option emergency) :=
  match Py.get data "telemetry" data with
  | Raise e => (tool, Raise e)
  | Ok telemetry =>
      and_then (check_battery telemetry)
        (and_then (check_signal telemetry)
           (and_then (check_obstacle telemetry)
              (and_then (check_geofence_if_enabled telemetry)
                 (and_then (check_temperature telemetry) all_clear)))) tool
  end.

(** [SafetyLevel.value] *)
Definition value (level : SafetyLevel) : string :=
  match level with
  | NORMAL => "normal"
  | CAUTION => "caution"
  | WARNING => "warning"
  | CRITICAL => "critical"
  | EMERGENCY => "emergency"
  end.

(** The dictionary [apply] returns. *)
Record verdict : Type := Verdict {
  safe : bool;
  found : option emergency;
  level : string
}.

(** [apply]: the emergency check, and the level it left. *)
Definition apply (tool : SlomTool) (data : pyval) : SlomTool * result verdict :=
  match check_emergency tool data with
  | (tool, Raise e) => (tool, Raise e)
  | (tool, Ok found) =>
      (tool, Ok (Verdict match found with None => true | Some _ => false end
                   found (value (safety_level tool))))
  end.


(** [action_disable_geofence]: the item assignment needs a fence that is a
    dictionary. *)
Definition action_disable_geofence (tool : SlomTool) : SlomTool * result pyval :=
  match geofence tool with
  | PDict fence =>
      (Tool (thresholds tool) (safety_level tool) (PDict (<[ "enabled" := PBool false ]> fence)),
       Ok (PDict {[ "success" := PBool true; "message" := PStr "Геозона отключена" ]}))
  | _ => (tool, Raise TypeError)
  end.

(** [action_set_threshold]: only a threshold that exists can be set. *)
Definition action_set_threshold (tool : SlomTool) (parameter : string) (value : pyval)
    : SlomTool * pyval :=
  match thresholds tool !! parameter with
  | None =>
      (tool, PDict {[ "success" := PBool false;
                      "error" := PStr ("Неизвестный параметр: " ++ parameter) ]})
  | Some _ =>
      let updated := <[ parameter := value ]> (thresholds tool) in
      (Tool updated (safety_level tool) (geofence tool),
       PDict {[ "success" := PBool true; "thresholds" := PDict updated ]})
  end.

End Slom.

(** ** Decisions *)

(** The [reason] of a decision; where the source formats a value into the
    text, the constructor carries it. *)
Inductive reason : Type :=
| ReasonLowBattery          (* "Низкий заряд батареи" *)
| ReasonCriticalBattery     (* "Критический заряд батареи" *)
| ReasonSignalLost          (* "Потеря сигнала" *)
| ReasonHighWind            (* "Сильный ветер" *)
| ReasonObstacleDetected    (* "Обнаружено препятствие" *)
| ReasonAwaitingCommands    (* "Ожидание команд" *)
| ReasonFreeFlight          (* "Свободный полет" *)
| ReasonObstacleCritical (distance : pyval)
| ReasonObstacleAt (distance : pyval)
| ReasonNoWaypoints         (* "Нет точек маршрута" *)
| ReasonMissionComplete     (* "Миссия завершена" *)
| ReasonWaypointReached (target : pyval)
| ReasonMovingToWaypoint (distance : pyval)
| ReasonUnknownEmergency    (* "Неизвестная аварийная ситуация" *)
| ReasonFallback            (* "Резервный режим" *)
| ReasonMissionError        (* "Ошибка миссии" *)
| ReasonEmergency (emergency : Slom.emergency)
| ReasonAdvice (text : pyval).

(** A decision dictionary.  [command] is a string in every decision the code
    builds itself; the advisory hook may put any value there.  [params] is
    absent from most decisions. *)
Record decision : Type := Decision {
  command : pyval;
  params : option (gmap string pyval);
  why : reason;
  priority : string
}.

(** [MissionParams] of agent/core.py. *)
Record MissionParams : Type := Mission {
  mission_name : string;
  mission_id : string;
  waypoints : pyval;
  altitude : pyval;
  speed : pyval;
  max_distance : pyval;
  emergency_protocols : pyval;
  data_collection : bool;
  learning_enabled : bool
}.

(** The [mission] argument of the navigator: an object with a [waypoints]
    attribute, or any other value, read with [.get]. *)
Inductive mission_arg : Type :=
| MissionObject (m : MissionParams)
| MissionValue (v : pyval).

(** ** agent/decision_maker.py *)

Module DecisionMaker.

Record safety_rule : Type := SafetyRule {
  name : string;
  condition : pyval -> result bool;
  action : decision;
  rank : Z   (* the "priority" entry of the rule *)
}.

Definition _init_safety_rules : list safety_rule :=
  [ SafetyRule "low_battery"
      (fun telemetry => b ← Py.get telemetry "battery" (PNum 100); Py.lt b (PNum 20))
      (Decision (PStr "RTL") None ReasonLowBattery "critical")
      100;
    SafetyRule "critical_battery"
      (fun telemetry => b ← Py.get telemetry "battery" (PNum 100); Py.lt b (PNum 10))
      (Decision (PStr "LAND") None ReasonCriticalBattery "critical")
      200;
    SafetyRule "signal_lost"
      (fun telemetry => s ← Py.get telemetry "signal_strength" (PNum 100); Py.lt s (PNum 20))
      (Decision (PStr "RTL") None ReasonSignalLost "high")
      90;
    SafetyRule "high_wind"
      (fun telemetry => w ← Py.get telemetry "wind_speed" (PNum 0); Py.gt w (PNum 15))
      (Decision (PStr "LAND") None ReasonHighWind "high")
      80;
    SafetyRule "obstacle_detected"
      (fun telemetry => o ← Py.get telemetry "obstacle_distance" (PNum 100); Py.lt o (PNum 5))
      (Decision (PStr "HOVER") None ReasonObstacleDetected "high")
      85 ].

(** [sorted(rules, key=lambda r: r["priority"], reverse=True)]: the sort is
    stable, so a rule stays ahead of the later rules of the same rank. *)
Fixpoint insert_rule (r : safety_rule) (sorted : list safety_rule) : list safety_rule :=
  match sorted with
  | [] => [r]
  | r' :: rest =>
      if (rank r' <=? rank r)%Z then r :: r' :: rest
      else r' :: insert_rule r rest
  end.

Definition sorted_rules (rules : list safety_rule) : list safety_rule :=
  foldr insert_rule [] rules.

(** The loop of [_check_safety_rules]: a rule whose condition raises is
    logged and passed over. *)
Fixpoint first_matching (rules : list safety_rule) (telemetry : pyval) : option decision :=
  match rules with
  | [] => None
  | rule :: rest =>
      match condition rule telemetry with
      | Ok true => Some (action rule)
      | Ok false | Raise _ => first_matching rest telemetry
      end
  end.

Definition _check_safety_rules (safety_rules : list safety_rule) (telemetry : pyval)
    : option decision :=
  first_matching (sorted_rules safety_rules) telemetry.

Definition _calculate_avoidance_direction (obstacle : pyval) : result (gmap string pyval) :=
  obs_x ← Py.get obstacle "x" (PNum 0);
  obs_y ← Py.get obstacle "y" (PNum 0);
  obs_z ← Py.get obstacle "z" (PNum 0);
  distance ← Py.norm3 obs_x obs_y obs_z;
  positive ← Py.gt distance (PNum 0);
  if (positive : bool) then
    nx ← Py.neg obs_x;
    x ← Py.div nx distance;
    ny ← Py.neg obs_y;
    y ← Py.div ny distance;
    Ok {[ "x" := x; "y" := y; "z" := PNum 0 ]}   (* z = 0: the altitude is kept *)
  else Ok {[ "x" := PNum 1; "y" := PNum 0; "z" := PNum 0 ]}.

(** [lambda o: o.get("distance", float('inf'))] *)
Definition distance_key (o : pyval) : result pyval :=
  Py.get o "distance" (PNum infinity).

(** [min(obstacles, key=distance_key)] *)
Definition closest_obstacle (obstacles : list pyval) : result pyval :=
  Py.min_by distance_key obstacles.

Definition _handle_obstacles (obstacles : pyval) : result (option decision) :=
  if negb (Py.truthy obstacles) then Ok None
  else
    items ← Py.iter obstacles;
    closest ← closest_obstacle items;
    distance ← Py.get closest "distance" (PNum 100);
    critical ← Py.lt distance (PNum 3);
    if (critical : bool) then
      Ok (Some (Decision (PStr "LAND") None (ReasonObstacleCritical distance) "critical"))
    else
      dangerous ← Py.lt distance (PNum 10);
      if (dangerous : bool) then
        direction ← _calculate_avoidance_direction closest;
        Ok (Some (Decision (PStr "AVOID")
                    (Some {[ "direction" := PDict direction; "distance" := PNum 15 ]})
                    (ReasonObstacleAt distance) "high"))
      else Ok None.

Definition _calculate_distance (pos1 pos2 : pyval) : result pyval :=
  x1 ← Py.get pos1 "x" (PNum 0);
  x2 ← Py.get pos2 "x" (PNum 0);
  dx ← Py.sub x1 x2;
  y1 ← Py.get pos1 "y" (PNum 0);
  y2 ← Py.get pos2 "y" (PNum 0);
  dy ← Py.sub y1 y2;
  z1 ← Py.get pos1 "z" (PNum 0);
  z2 ← Py.get pos2 "z" (PNum 0);
  dz ← Py.sub z1 z2;
  Py.norm3 dx dy dz.

(** The loop of [_find_next_waypoint]: the first waypoint farther than 2.0. *)
Fixpoint first_unreached (current_pos : pyval) (waypoints : list pyval)
    : result (option pyval) :=
  match waypoints with
  | [] => Ok None
  | wp :: rest =>
      distance ← _calculate_distance current_pos wp;
      far ← Py.gt distance (PNum 2);
      if (far : bool) then Ok (Some wp) else first_unreached current_pos rest
  end.

Definition _find_next_waypoint (current_pos waypoints : pyval) : result (option pyval) :=
  items ← Py.iter waypoints;
  first_unreached current_pos items.

Definition _navigate_mission (perception : pyval) (mission : mission_arg) : result decision :=
  telemetry ← Py.get perception "telemetry" (PDict ∅);
  current_pos ← Py.get telemetry "position" Slom.origin;
  waypoints ← match mission with
              | MissionObject m => Ok (waypoints m)
              | MissionValue v => Py.get v "waypoints" (PList [])
              end;
  if negb (Py.truthy waypoints) then
    Ok (Decision (PStr "HOVER") None ReasonNoWaypoints "low")
  else
    next ← _find_next_waypoint current_pos waypoints;
    match next with
    | None => Ok (Decision (PStr "RTL") None ReasonMissionComplete "medium")
    | Some target =>
        distance ← _calculate_distance current_pos target;
        reached ← Py.lt distance (PNum 2);
        if (reached : bool) then
          Ok (Decision (PStr "WAYPOINT_REACHED") (Some {[ "waypoint" := target ]})
                (ReasonWaypointReached target) "medium")
        else
          speed ← Py.get target "speed" (PNum 5);
          x ← Py.get target "x" (PNum 0);
          y ← Py.get target "y" (PNum 0);
          z ← Py.get target "z" (PNum 10);
          Ok (Decision (PStr "GOTO")
                (Some {[ "x" := x; "y" := y; "z" := z; "speed" := speed ]})
                (ReasonMovingToWaypoint distance) "medium")
    end.

(** Step 2 of [decide_mission]: the obstacle handler runs only when the
    perception has an [obstacles] entry. *)
Definition obstacles_of (perception : pyval) : option pyval :=
  match perception with
  | PDict d => d !! "obstacles"
  | _ => None
  end.

(** The navigation decision is a non-empty dictionary, so the closing
    [HOVER] of the source (reason "Ожидание команд") is never returned. *)
Definition decide_mission (safety_rules : list safety_rule) (perception : pyval)
    (mission : mission_arg) : result decision :=
  telemetry ← Py.get perception "telemetry" (PDict ∅);
  match _check_safety_rules safety_rules telemetry with
  | Some safety_decision => Ok safety_decision
  | None =>
      obstacle_decision ← match obstacles_of perception with
                          | Some obstacles => _handle_obstacles obstacles
                          | None => Ok None
                          end;
      match obstacle_decision with
      | Some d => Ok d
      | None => _navigate_mission perception mission
      end
  end.

Definition decide_free (safety_rules : list safety_rule) (perception : pyval)
    : result decision :=
  telemetry ← Py.get perception "telemetry" (PDict ∅);
  match _check_safety_rules safety_rules telemetry with
  | Some safety_decision => Ok safety_decision
  | None => Ok (Decision (PStr "HOVER") None ReasonFreeFlight "low")
  end.

(** [update_rules]: the new rules are appended to the list. *)
Definition update_rules (safety_rules new_rules : list safety_rule) : list safety_rule :=
  safety_rules ++ new_rules.

(** Whether [decision.get("reason")] is true: the texts the code writes are
    not empty, a reason the advisory hook supplied may be. *)
Definition has_reason (d : decision) : bool :=
  match why d with
  | ReasonAdvice text => Py.truthy text
  | _ => true
  end.

(** Whether [decision.get("params")] is true: present and not empty. *)
Definition has_params (d : decision) : bool :=
  match params d with
  | Some p => negb (bool_decide (p = ∅))
  | None => false
  end.

Set Warnings "-inexact-float".

(** [evaluate_decision]; the source does not use its context argument. *)
Definition evaluate_decision (d : decision) : float :=
  let score := 0.5%float in
  let score :=
    if String.eqb (priority d) "critical" then (score + 0.3)%float
    else if String.eqb (priority d) "high" then (score + 0.2)%float
    else score in
  let score := if has_reason d then (score + 0.1)%float else score in
  let score := if has_params d then (score + 0.1)%float else score in
  if (1 <? score)%float then 1%float else score.

End DecisionMaker.

(** ** agent/core.py *)

Module Core.

Inductive AgentState : Type :=
| INITIALIZING
| READY
| FLYING
| LANDING
| EMERGENCY
| LEARNING
| UPDATING
| SHUTDOWN.

#[global] Instance AgentState_eq_dec : EqDecision AgentState.
Proof. solve_decision. Defined.

(** A command as the vehicle client receives it: the command and its keyword
    arguments. *)
Definition call : Type := pyval * gmap string pyval.

(** The vehicle client, [sim_client] or [real_drone_client]: its answer to a
    command may depend on the commands it received before, and either
    method may raise. *)
Record Client : Type := {
  send_command : list call -> call -> result pyval;
  get_telemetry : nat -> result pyval
}.

(** The mission report of [_complete_mission]. *)
Record report : Type := Report {
  report_mission_id : string;
  report_mission_name : string;
  status : string;
  waypoints_completed : nat;
  total_waypoints : nat;
  events : list pyval;
  data_collected : list pyval
}.

(** What the agent does not own: the vehicle client if one is connected, the
    sub-agent's review of a decision, the storage that keeps a report (it
    stands for the file write, the sub-agent's notification and the learning
    step of [_complete_mission]), and the emergency stops other tasks request
    while the mission loop is suspended in its n-th iteration. *)
Record Collaborators : Type := {
  client : option Client;
  review_decision : decision -> pyval -> pyval;
  store_report : report -> result ();
  emergency_stop_requested : nat -> bool
}.

(** The fields of [DroneIntelligentAgent] the modelled methods read or write.
    [dispatched] is the list of commands handed to the client so far and
    [perceived] the number of telemetry reads; [alerts] belongs to the
    sub-agent.  The memory stores and the learner are not modelled. *)
Record Agent : Type := MkAgent {
  config : gmap string pyval;
  state : AgentState;
  slom : option Slom.SlomTool;
  safety_rules : list DecisionMaker.safety_rule;
  telemetry : gmap string pyval;
  current_mission : option MissionParams;
  mission_history : list report;
  dispatched : list call;
  perceived : nat;
  alerts : list (pyval * pyval)
}.

Definition set_state (a : Agent) (s : AgentState) : Agent :=
  MkAgent (config a) s (slom a) (safety_rules a) (telemetry a) (current_mission a)
    (mission_history a) (dispatched a) (perceived a) (alerts a).

Definition set_slom (a : Agent) (tool : option Slom.SlomTool) : Agent :=
  MkAgent (config a) (state a) tool (safety_rules a) (telemetry a) (current_mission a)
    (mission_history a) (dispatched a) (perceived a) (alerts a).

Definition set_telemetry (a : Agent) (t : gmap string pyval) : Agent :=
  MkAgent (config a) (state a) (slom a) (safety_rules a) t (current_mission a)
    (mission_history a) (dispatched a) (perceived a) (alerts a).

Definition set_current_mission (a : Agent) (m : option MissionParams) : Agent :=
  MkAgent (config a) (state a) (slom a) (safety_rules a) (telemetry a) m
    (mission_history a) (dispatched a) (perceived a) (alerts a).

Definition set_mission_history (a : Agent) (h : list report) : Agent :=
  MkAgent (config a) (state a) (slom a) (safety_rules a) (telemetry a) (current_mission a)
    h (dispatched a) (perceived a) (alerts a).

Definition set_dispatched (a : Agent) (l : list call) : Agent :=
  MkAgent (config a) (state a) (slom a) (safety_rules a) (telemetry a) (current_mission a)
    (mission_history a) l (perceived a) (alerts a).

Definition set_perceived (a : Agent) (n : nat) : Agent :=
  MkAgent (config a) (state a) (slom a) (safety_rules a) (telemetry a) (current_mission a)
    (mission_history a) (dispatched a) n (alerts a).

Definition set_alerts (a : Agent) (l : list (pyval * pyval)) : Agent :=
  MkAgent (config a) (state a) (slom a) (safety_rules a) (telemetry a) (current_mission a)
    (mission_history a) (dispatched a) (perceived a) l.

(** The telemetry the constructor installs. *)
Definition initial_telemetry : gmap string pyval :=
  {[ "position" := Slom.origin;
     "velocity" := PDict {[ "vx" := PNum 0; "vy" := PNum 0; "vz" := PNum 0 ]};
     "attitude" := PDict {[ "roll" := PNum 0; "pitch" := PNum 0; "yaw" := PNum 0 ]};
     "battery" := PNum 100;
     "signal_strength" := PNum 100;
     "gps_status" := PStr "3D_FIX";
     "temperature" := PNum 25 ]}.

(** The agent [__init__] builds from a configuration and its tools. *)
Definition new_agent (config : gmap string pyval) (slom : option Slom.SlomTool) : Agent :=
  MkAgent config INITIALIZING slom DecisionMaker._init_safety_rules initial_telemetry
    None [] [] 0 [].

(** The emergency dictionary of [_check_emergency]. *)
Record alarm : Type := Alarm {
  alarm_type : string;
  alarm_severity : string;
  alarm_data : gmap string pyval
}.

Definition _check_emergency (perception : pyval) : result (option alarm) :=
  telemetry ← Py.get perception "telemetry" (PDict ∅);
  battery ← Py.get telemetry "battery" (PNum 100);
  low ← Py.lt battery (PNum 20);
  if (low : bool) then Ok (Some (Alarm "low_battery" "high" {[ "battery" := battery ]}))
  else
    telemetry ← Py.get perception "telemetry" (PDict ∅);
    signal ← Py.get telemetry "signal_strength" (PNum 100);
    lost ← Py.lt signal (PNum 30);
    if (lost : bool) then Ok (Some (Alarm "signal_lost" "high" {[ "signal" := signal ]}))
    else Ok None.

Definition _handle_emergency (emergency : alarm) : result decision :=
  if String.eqb (alarm_type emergency) "low_battery" then
    Ok (Decision (PStr "RTL") None ReasonLowBattery "high")
  else if String.eqb (alarm_type emergency) "signal_lost" then
    Ok (Decision (PStr "RTL") None ReasonSignalLost "high")
  else Ok (Decision (PStr "LAND") None ReasonUnknownEmergency "high").

Definition _fallback_decision : result decision :=
  Ok (Decision (PStr "HOVER") None ReasonFallback "medium").

(** The entries [decide] writes into [self.telemetry] before anything else. *)
Definition updated_telemetry (a : Agent) (perception_data : pyval)
    : result (gmap string pyval) :=
  old_position ← Py.item (PDict (telemetry a)) "position";
  position ← Py.get perception_data "position" old_position;
  old_velocity ← Py.item (PDict (telemetry a)) "velocity";
  velocity ← Py.get perception_data "velocity" old_velocity;
  old_battery ← Py.item (PDict (telemetry a)) "battery";
  battery ← Py.get perception_data "battery" old_battery;
  Ok (<[ "battery" := battery ]> (<[ "velocity" := velocity ]>
        (<[ "position" := position ]> (telemetry a)))).

Definition _merge_decisions (d : decision) (sub_agent_advice : pyval) : result decision :=
  suggested ← Py.get sub_agent_advice "suggested_command" PNone;
  if Py.truthy suggested then
    text ← Py.get sub_agent_advice "reason" (PStr "Рекомендация субагента");
    Ok (Decision suggested (params d) (ReasonAdvice text) (priority d))
  else Ok d.

(** [self.config.get('sub_agent', {}).get('enabled', False)] *)
Definition sub_agent_enabled (a : Agent) : result bool :=
  section ← Py.get (PDict (config a)) "sub_agent" (PDict ∅);
  enabled ← Py.get section "enabled" (PBool false);
  Ok (Py.truthy enabled).

(** The part of [decide] after the two emergency checks. *)
Definition decide_normally (w : Collaborators) (a : Agent) (perception_data : pyval)
    : result decision :=
  d ← match current_mission a with
      | Some mission =>
          DecisionMaker.decide_mission (safety_rules a) perception_data (MissionObject mission)
      | None => DecisionMaker.decide_free (safety_rules a) perception_data
      end;
  consult ← sub_agent_enabled a;
  if (consult : bool) then
    let sub_agent_advice := review_decision w d perception_data in
    change ← Py.get sub_agent_advice "suggest_change" (PBool false);
    if Py.truthy change then _merge_decisions d sub_agent_advice else Ok d
  else Ok d.

(** The body of the [try] of [decide]. *)
Definition decide_body (w : Collaborators) (a : Agent) (perception_data : pyval)
    : Agent * result decision :=
  match updated_telemetry a perception_data with
  | Raise e => (a, Raise e)
  | Ok t =>
      let a := set_telemetry a t in
      let '(a, found) :=
        match slom a with
        | Some tool =>
            let '(tool, found) := Slom.check_emergency tool perception_data in
            (set_slom a (Some tool), found)
        | None => (a, Ok None)
        end in
      match found with
      | Raise e => (a, Raise e)
      | Ok (Some emergency) =>
          (a, Ok (Decision (PStr "RTL") None (ReasonEmergency emergency) "high"))
      | Ok None =>
          (a, emergency ← _check_emergency perception_data;
              match emergency with
              | Some emergency => _handle_emergency emergency
              | None => decide_normally w a perception_data
              end)
      end
  end.

(** [decide]: whatever the body raises, the fallback decision is returned. *)
Definition decide (w : Collaborators) (a : Agent) (perception_data : pyval)
    : Agent * result decision :=
  let '(a, outcome) := decide_body w a perception_data in
  (a, try_except outcome (fun _ => _fallback_decision)).

(** [str(e)] is not modelled beyond the class of the exception. *)
Definition describe (e : exn) : pyval :=
  PStr match e with
       | TypeError => "TypeError"
       | AttributeError => "AttributeError"
       | KeyError => "KeyError"
       | ValueError => "ValueError"
       | ZeroDivisionError => "ZeroDivisionError"
       | OverflowError => "OverflowError"
       | CollaboratorError => "CollaboratorError"
       end.

Definition failure (error : pyval) : pyval :=
  PDict {[ "success" := PBool false; "error" := error ]}.

(** Hand a command to the connected client, if any. *)
Definition dispatch (w : Collaborators) (a : Agent) (c : call) (offline : pyval)
    : Agent * result pyval :=
  match client w with
  | Some vehicle => (set_dispatched a (dispatched a ++ [c]), send_command vehicle (dispatched a) c)
  | None => (a, Ok (failure offline))
  end.

(** The state update of [act]. *)
Definition next_state (s : AgentState) (command : pyval) : AgentState :=
  if Py.among command ["TAKEOFF"; "GOTO"; "FOLLOW_PATH"] then FLYING
  else if Py.among command ["LAND"; "RTL"] then LANDING
  else s.

(** [sub_agent.notify_action]: a command that did not succeed is recorded as
    an alert. *)
Definition notify_action (a : Agent) (action answer : pyval) : Agent * result () :=
  match Py.get answer "success" (PBool false) with
  | Raise e => (a, Raise e)
  | Ok success =>
      if Py.truthy success then (a, Ok ())
      else
        match Py.get answer "error" (PStr "Unknown error") with
        | Raise e => (a, Raise e)
        | Ok error => (set_alerts a (alerts a ++ [(action, error)]), Ok ())
        end
  end.

Definition act (w : Collaborators) (a : Agent) (d : decision) : Agent * result pyval :=
  let command := command d in
  let params := default ∅ (params d) in
  let '(a, outcome) :=
    match dispatch w a (command, params) (PStr "Нет подключения к дрону") with
    | (a, Raise e) => (a, Raise e)
    | (a, Ok answer) =>
        let a := set_state a (next_state (state a) command) in
        match notify_action a command answer with
        | (a, Raise e) => (a, Raise e)
        | (a, Ok _) => (a, Ok answer)
        end
    end in
  (a, try_except outcome (fun e => Ok (failure (describe e)))).

(** [perceive]: the telemetry of the client is merged into [self.telemetry];
    any failure gives the empty perception.  The readings of the tools are
    left out of the perception. *)
Definition perceive (w : Collaborators) (a : Agent) : Agent * pyval :=
  match client w with
  | Some vehicle =>
      let reads := perceived a in
      let a := set_perceived a (S reads) in
      match t ← get_telemetry vehicle reads;
            merged ← Py.update (telemetry a) t;
            Ok (t, merged) with
      | Ok (t, merged) =>
          (set_telemetry a merged, PDict {[ "telemetry" := t; "tools" := PDict ∅ ]})
      | Raise _ => (a, PDict ∅)
      end
  | None => (a, PDict {[ "tools" := PDict ∅ ]})
  end.

Definition _goto_waypoint (w : Collaborators) (a : Agent) (waypoint : pyval)
    : Agent * result pyval :=
  match x ← Py.get waypoint "x" (PNum 0);
        y ← Py.get waypoint "y" (PNum 0);
        z ← Py.get waypoint "z" (PNum 10);
        speed ← Py.get waypoint "speed" (PNum 5);
        Ok ({[ "x" := x; "y" := y; "z" := z; "speed" := speed ]} : gmap string pyval) with
  | Raise e => (a, Raise e)
  | Ok params => dispatch w a (PStr "GOTO", params) (PStr "Нет подключения")
  end.

Definition _collect_waypoint_data (w : Collaborators) (a : Agent) (waypoint : pyval)
    : Agent * result pyval :=
  let '(a, perception) := perceive w a in
  (a, telemetry ← Py.get perception "telemetry" (PDict ∅);
      Ok (PDict {[ "waypoint" := waypoint; "telemetry" := telemetry ]})).

(** The local [mission_data] of [run_mission]. *)
Record mission_data : Type := MissionData {
  completed : list pyval;
  reached_events : list pyval;
  collected : list pyval
}.

(** One waypoint reached: it is recorded, and telemetry is collected there
    when the mission asks for it. *)
Definition record_waypoint (w : Collaborators) (a : Agent) (mission : MissionParams)
    (data : mission_data) (waypoint : pyval) : Agent * result mission_data :=
  let data := MissionData (completed data ++ [waypoint])
                (reached_events data ++
                   [PDict {[ "type" := PStr "waypoint_reached"; "waypoint" := waypoint ]}])
                (collected data) in
  if data_collection mission then
    match _collect_waypoint_data w a waypoint with
    | (a, Raise e) => (a, Raise e)
    | (a, Ok sample) =>
        (a, Ok (MissionData (completed data) (reached_events data) (collected data ++ [sample])))
    end
  else (a, Ok data).

(** The [for] loop of [run_mission], [i] counting its iterations.  The loop
    is suspended at the end of every iteration ([asyncio.sleep]); an
    emergency stop requested by another task meanwhile has set the state to
    [EMERGENCY] when the loop resumes. *)
Fixpoint waypoint_loop (w : Collaborators) (a : Agent) (mission : MissionParams)
    (data : mission_data) (i : nat) (remaining : list pyval) : Agent * result mission_data :=
  match remaining with
  | [] => (a, Ok data)
  | waypoint :: rest =>
      if bool_decide (state a = EMERGENCY) then (a, Ok data)
      else
        match _goto_waypoint w a waypoint with
        | (a, Raise e) => (a, Raise e)
        | (a, Ok answer) =>
            match Py.get answer "success" PNone with
            | Raise e => (a, Raise e)
            | Ok success =>
                let '(a, recorded) :=
                  if Py.truthy success then record_waypoint w a mission data waypoint
                  else (a, Ok data) in
                match recorded with
                | Raise e => (a, Raise e)
                | Ok data =>
                    let a := if emergency_stop_requested w i then set_state a EMERGENCY
                             else a in
                    waypoint_loop w a mission data (S i) rest
                end
            end
        end
  end.

Definition _complete_mission (w : Collaborators) (a : Agent) (mission : MissionParams)
    (data : mission_data) : Agent * result report :=
  match total ← Py.len (waypoints mission);
        let r := Report (mission_id mission) (mission_name mission) "completed"
                   (length (completed data)) total (reached_events data) (collected data) in
        _ ← store_report w r;
        Ok r with
  | Raise e => (a, Raise e)
  | Ok r =>
      let a := set_current_mission a None in
      let a := set_state a READY in
      (set_mission_history a (mission_history a ++ [r]), Ok r)
  end.

Definition _handle_mission_failure (w : Collaborators) (a : Agent) (error : exn)
    : Agent * result () :=
  match act w a (Decision (PStr "LAND") None ReasonMissionError "high") with
  | (a, Raise e) => (a, Raise e)
  | (a, Ok _) =>
      let a := set_current_mission a None in
      (set_state a READY, Ok ())
  end.

(** The body of the [try] of [run_mission]: the loop, then the report. *)
Definition mission_body (w : Collaborators) (a : Agent) (mission : MissionParams)
    : Agent * result report :=
  match Py.iter (waypoints mission) with
  | Raise e => (a, Raise e)
  | Ok items =>
      match waypoint_loop w a mission (MissionData [] [] []) 0 items with
      | (a, Raise e) => (a, Raise e)
      | (a, Ok data) => _complete_mission w a mission data
      end
  end.

(** The first two assignments of [run_mission]. *)
Definition start_mission (a : Agent) (mission : MissionParams) : Agent :=
  set_state (set_current_mission a (Some mission)) FLYING.

(** [run_mission] has no [return]: the caller gets [None] ([Ok None] here)
    however the mission went.  The sub-agent's [notify_mission_start] only
    logs and saves a backup; it changes nothing the agent holds. *)
Definition run_mission (w : Collaborators) (a : Agent) (mission : MissionParams)
    : Agent * result (option report) :=
  let a := start_mission a mission in
  match mission_body w a mission with
  | (a, Ok _) => (a, Ok None)
  | (a, Raise e) =>
      match _handle_mission_failure w a e with
      | (a, Raise e') => (a, Raise e')
      | (a, Ok _) => (a, Ok None)
      end
  end.

(** [emergency_stop], as far as the agent's own state goes. *)
Definition emergency_stop (a : Agent) : Agent := set_state a EMERGENCY.

End Core.

(** ** sim/airsim_client.py, simulation mode *)

Module Sim.

(** The [position] entry of the client's telemetry at construction. *)
Definition initial_position : gmap string pyval :=
  {[ "x" := PNum 0; "y" := PNum 0; "z" := PNum 0 ]}.

Definition done (command : pyval) : pyval :=
  PDict {[ "success" := PBool true; "command" := command; "simulated" := PBool true ]}.

Section Simulation.

(** How a command is formatted into the error message is left open. *)
Variable render : pyval -> string.

(** [_simulate_command]: the new position and the answer. *)
Definition _simulate_command (position : gmap string pyval) (c : Core.call)
    : gmap string pyval * pyval :=
  let '(command, params) := c in
  if Py.among command ["TAKEOFF"] then
    (<[ "z" := default (PNum 10) (params !! "altitude") ]> position, done command)
  else if Py.among command ["LAND"] then
    (<[ "z" := PNum 0 ]> position, done command)
  else if Py.among command ["GOTO"] then
    (<[ "z" := default (PNum 10) (params !! "z") ]>
       (<[ "y" := default (PNum 0) (params !! "y") ]>
          (<[ "x" := default (PNum 0) (params !! "x") ]> position)),
     done command)
  else if Py.among command ["HOVER"] then (position, done command)
  else if Py.among command ["RTL"] then
    (<[ "y" := PNum 0 ]> (<[ "x" := PNum 0 ]> position), done command)
  else
    (position,
     PDict {[ "success" := PBool false;
              "error" := PStr ("Неизвестная команда: " ++ render command) ]}).

(** The position after the commands received so far; the noise every
    telemetry reading adds to it is not modelled. *)
Definition position_after (history : list Core.call) : gmap string pyval :=
  fold_left (fun position c => fst (_simulate_command position c)) history initial_position.

(** [send_command] in simulation mode, as the client of an agent; how the
    simulated telemetry evolves is left to [readings]. *)
Definition client (readings : nat -> result pyval) : Core.Client :=
  {| Core.send_command := fun history c =>
       Ok (snd (_simulate_command (position_after history) c));
     Core.get_telemetry := readings |}.

End Simulation.

End Sim.

(** ** What a slice keeps *)

(** [l[start:]] for an integer [start]: a negative one counts from the
    end, and both are clipped to the list. *)
Definition slice_from {X : Type} (start : Z) (l : list X) : list X :=
  let len := Z.of_nat (length l) in
  let start := if (start <? 0)%Z then Z.max 0 (start + len) else Z.min start len in
  drop (Z.to_nat start) l.

(** ** agent/memory.py, the short-term memory *)

Module Memory.

(** [deque.append] on a deque of bounded length: when the deque has become
    too long, the oldest entry is dropped. *)
Definition deque_append {X : Type} (maxlen : nat) (q : list X) (x : X) : list X :=
  let q := (q ++ [x])%list in
  if (maxlen <? length q)%nat then tail q else q.

Section ShortTerm.

(** The records kept, and the time stamps of the clock. *)
Variables A T : Type.

Record ShortTermMemory : Type := Store {
  capacity : nat;
  memory : list A;
  timestamps : list T
}.

Definition new (capacity : nat) : ShortTermMemory := Store capacity [] [].

Definition add (m : ShortTermMemory) (data : A) (now : T) : ShortTermMemory :=
  Store (capacity m) (deque_append (capacity m) (memory m) data)
    (deque_append (capacity m) (timestamps m) now).

(** [get_recent]: the slice [[-n:]] of the records. *)
Definition get_recent (m : ShortTermMemory) (n : Z) : list A :=
  slice_from (- n) (memory m).

Definition get_all (m : ShortTermMemory) : list A := memory m.

Definition clear (m : ShortTermMemory) : ShortTermMemory := Store (capacity m) [] [].

(** A run of [add], oldest first. *)
Definition add_all (m : ShortTermMemory) (entries : list (A * T)) : ShortTermMemory :=
  fold_left (fun m entry => add m (fst entry) (snd entry)) entries m.

End ShortTerm.

Arguments capacity {A T} _.
Arguments memory {A T} _.
Arguments timestamps {A T} _.
Arguments add {A T} _ _ _.
Arguments get_recent {A T} _ _.
Arguments get_all {A T} _.
Arguments clear {A T} _.
Arguments add_all {A T} _ _.

End Memory.

(** ** tools/base_tool.py *)

Module BaseTool.

(** An entry of [operation_history], without its times. *)
Record operation : Type := Operation {
  op_action : string;
  op_params : gmap string pyval;
  op_result : pyval
}.

Section Tool.

(** What the concrete tool holds, and its [action_...] methods by name:
    [hasattr] and [getattr] on the tool. *)
Variable State : Type.
Variable actions : string -> option (gmap string pyval -> State -> State * result pyval).

Record Tool : Type := MkTool {
  inner : State;
  calls : nat;
  errors : nat;
  operation_history : list operation
}.

(** [execute]: the call is counted first; the answer of the method, or the
    refusal of an unknown action, is recorded in the history; a method
    that raises is counted as an error instead, and what it had changed
    stays changed. *)
Definition execute (tool : Tool) (action : string) (params : option (gmap string pyval))
    : Tool * pyval :=
  let params := default ∅ params in
  let calls := S (calls tool) in
  match actions action with
  | Some method =>
      match method params (inner tool) with
      | (inner', Ok answer) =>
          (MkTool inner' calls (errors tool)
             (operation_history tool ++ [Operation action params answer]), answer)
      | (inner', Raise e) =>
          (MkTool inner' calls (S (errors tool)) (operation_history tool),
           Core.failure (Core.describe e))
      end
  | None =>
      let answer :=
        PDict {[ "success" := PBool false;
                 "error" := PStr ("Действие " ++ action ++ " не поддерживается") ]} in
      (MkTool (inner tool) calls (errors tool)
         (operation_history tool ++ [Operation action params answer]), answer)
  end.

(** [get_history]: the slice [[-limit:]]. *)
Definition get_history (tool : Tool) (limit : Z) : list operation :=
  slice_from (- limit) (operation_history tool).

Definition reset_metrics (tool : Tool) : Tool :=
  MkTool (inner tool) 0 0 (operation_history tool).

Definition clear_history (tool : Tool) : Tool :=
  MkTool (inner tool) (calls tool) (errors tool) [].

(** A run of [execute]. *)
Definition execute_all (tool : Tool) (requests : list (string * option (gmap string pyval)))
    : Tool :=
  fold_left (fun tool request => fst (execute tool (fst request) (snd request))) requests tool.

End Tool.

Arguments inner {State} _.
Arguments calls {State} _.
Arguments errors {State} _.
Arguments operation_history {State} _.
Arguments execute {State} _ _ _ _.
Arguments get_history {State} _ _.
Arguments reset_metrics {State} _.
Arguments clear_history {State} _.
Arguments execute_all {State} _ _ _.

End BaseTool.

(** ** Reference definitions taken from the specification *)

(** Follows the spec's words (the table of section 4.5): the pairs of a
    state and a command for which a transition is listed. *)
Definition listed (s : Core.AgentState) (command : pyval) : bool :=
  match s with
  | Core.READY => Py.among command ["TAKEOFF"; "GOTO"; "FOLLOW_PATH"]
  | Core.FLYING => Py.among command ["LAND"; "RTL"]
  | _ => false
  end.



(** Follows the spec's words: the mission is marked failed in a report or
    failure record the caller can see, that is, in what [run_mission]
    returns or in the mission history. *)
Definition failure_recorded (before after : Core.Agent) (returned : option Core.report)
    : Prop :=
  (exists r, returned = Some r /\ Core.status r = "failed") \/
  (exists r, r ∈ Core.mission_history after /\ (r ∉ Core.mission_history before) /\
             Core.status r = "failed").

(** ** Conditions the theorems are stated under *)

(** One rule is tried no later than another. *)
Definition outranks (r1 r2 : DecisionMaker.safety_rule) : Prop :=
  (DecisionMaker.rank r2 <= DecisionMaker.rank r1)%Z.


(** The agent's own telemetry keeps the entries [decide] refreshes, as the
    telemetry of every constructed agent does. *)
Definition telemetry_ready (a : Core.Agent) : Prop :=
  is_Some (Core.telemetry a !! "position") /\
  is_Some (Core.telemetry a !! "velocity") /\
  is_Some (Core.telemetry a !! "battery").

(** The safety tool, when the agent has one, completes its check. *)
Definition slom_completes (a : Core.Agent) (perception_data : pyval) : Prop :=
  match Core.slom a with
  | Some tool => raises (Slom.check_emergency tool perception_data).2 = false
  | None => True
  end.

(** Whether handing the command of a decision to the client raises. *)
Definition dispatch_raises (w : Core.Collaborators) (a : Core.Agent) (d : decision) : bool :=
  match Core.client w with
  | Some vehicle =>
      raises (Core.send_command vehicle (Core.dispatched a)
                (command d, default ∅ (params d)))
  | None => false
  end.

(** ** Concrete inputs *)

Module Examples.

(** Telemetry on which every built-in rule matches. *)
Definition failing : gmap string pyval :=
  {[ "battery" := PNum 5; "signal_strength" := PNum 10; "wind_speed" := PNum 30;
     "obstacle_distance" := PNum 1 ]}.


(** An obstacle 1 m away with no [distance] entry, and a distant one. *)
Definition beside : pyval :=
  PDict {[ "x" := PNum 1; "y" := PNum 0; "z" := PNum 0 ]}.

Definition far_away : pyval :=
  PDict {[ "x" := PNum 50; "y" := PNum 0; "z" := PNum 0; "distance" := PNum 50 ]}.

(** A mission of three waypoints, the first one within reach of the origin. *)
Definition survey : MissionParams :=
  Mission "survey" "m-1"
    (PList [ PDict {[ "x" := PNum 0; "y" := PNum 0; "z" := PNum 1 ]};
             PDict {[ "x" := PNum 30; "y" := PNum 40; "z" := PNum 0 ]};
             PDict {[ "x" := PNum 60; "y" := PNum 80; "z" := PNum 0 ]} ])
    (PNum 50) (PNum 10) (PNum 5000) (PDict ∅) true false.

Definition healthy : pyval :=
  PDict {[ "telemetry" := PDict {[ "battery" := PNum 80; "position" := Slom.origin ]} ]}.

Definition drained : pyval :=
  PDict {[ "telemetry" := PDict {[ "battery" := PNum 5; "position" := Slom.origin ]} ]}.

Definition garbled : pyval :=
  PDict {[ "telemetry" := PDict {[ "battery" := PStr "low" ]} ]}.

(** Telemetry outside the default geofence, and above it. *)
Definition outside : pyval :=
  PDict {[ "position" := PDict {[ "x" := PNum 600; "y" := PNum 800; "z" := PNum 10 ]} ]}.


(** A client that accepts every command. *)
Definition compliant : Core.Client :=
  {| Core.send_command := fun _ _ => Ok (PDict {[ "success" := PBool true ]});
     Core.get_telemetry := fun _ => Ok (PDict {[ "battery" := PNum 80 ]}) |}.

(** A client that loses the link on every GOTO and accepts anything else. *)
Definition faulty : Core.Client :=
  {| Core.send_command := fun _ c =>
       if Py.among (fst c) ["GOTO"] then Raise CollaboratorError
       else Ok (PDict {[ "success" := PBool true ]});
     Core.get_telemetry := fun _ => Ok (PDict {[ "battery" := PNum 80 ]}) |}.

Definition simulated : Core.Collaborators :=
  {| Core.client := Some compliant;
     Core.review_decision := fun _ _ => PDict {[ "suggest_change" := PBool false ]};
     Core.store_report := fun _ => Ok ();
     Core.emergency_stop_requested := fun _ => false |}.

Definition unreliable : Core.Collaborators :=
  {| Core.client := Some faulty;
     Core.review_decision := fun _ _ => PDict {[ "suggest_change" := PBool false ]};
     Core.store_report := fun _ => Ok ();
     Core.emergency_stop_requested := fun _ => false |}.

Definition ready : Core.Agent := Core.set_state (Core.new_agent ∅ None) Core.READY.

Definition stopped : Core.Agent := Core.emergency_stop (Core.new_agent ∅ None).

(** The agent in the middle of the survey mission, without and with the
    safety tool. *)
Definition on_mission : Core.Agent := Core.start_mission ready survey.

Definition guarded_on_mission : Core.Agent :=
  Core.set_slom on_mission (Some Slom.default_tool).

Definition takeoff : decision :=
  Decision (PStr "TAKEOFF") (Some {[ "altitude" := PNum 10 ]}) ReasonFreeFlight "low".

End Examples.

(** ** Definitions for the further properties *)

(** A rule applies to a telemetry when its condition returns true; a
    condition that raises does not apply. *)
Definition applies (telemetry : pyval) (r : DecisionMaker.safety_rule) : bool :=
  match DecisionMaker.condition r telemetry with
  | Ok true => true
  | _ => false
  end.

(** The rule a single pass over the list, last to first, retains: among the
    rules that apply, the one of highest rank, and of those the one listed
    first. *)
Fixpoint winner (rules : list DecisionMaker.safety_rule) (telemetry : pyval)
    : option DecisionMaker.safety_rule :=
  match rules with
  | [] => None
  | r :: rest =>
      if applies telemetry r then
        match winner rest telemetry with
        | Some r' =>
            if (DecisionMaker.rank r <? DecisionMaker.rank r')%Z then Some r' else Some r
        | None => Some r
        end
      else winner rest telemetry
  end.

(** The first rule of a list that applies. *)
Fixpoint first_rule (rules : list DecisionMaker.safety_rule) (telemetry : pyval)
    : option DecisionMaker.safety_rule :=
  match rules with
  | [] => None
  | r :: rest => if applies telemetry r then Some r else first_rule rest telemetry
  end.

(** The rule of higher rank of two retained rules, the first one on a tie. *)
Definition higher (a b : option DecisionMaker.safety_rule) : option DecisionMaker.safety_rule :=
  match a, b with
  | Some r, Some n => if (DecisionMaker.rank r <? DecisionMaker.rank n)%Z then Some n else Some r
  | Some r, None => Some r
  | None, _ => b
  end.

(** The safety tool, when the agent has one, finds no emergency. *)
Definition slom_quiet (a : Core.Agent) (perception_data : pyval) : Prop :=
  match Core.slom a with
  | Some tool => (Slom.check_emergency tool perception_data).2 = Ok None
  | None => True
  end.

(** What the decision maker decides for the agent, before any advice. *)
Definition maker_decision (a : Core.Agent) (perception_data : pyval) : result decision :=
  match Core.current_mission a with
  | Some mission =>
      DecisionMaker.decide_mission (Core.safety_rules a) perception_data
        (MissionObject mission)
  | None => DecisionMaker.decide_free (Core.safety_rules a) perception_data
  end.


(** The event [run_mission] records for a waypoint it reached. *)
Definition reached_event (waypoint : pyval) : pyval :=
  PDict {[ "type" := PStr "waypoint_reached"; "waypoint" := waypoint ]}.

(** The commands a list of calls consists of. *)
Definition commands (calls : list Core.call) : list pyval := fst <$> calls.

(** The call [_goto_waypoint] makes for a waypoint given as a dictionary. *)
Definition goto_call (waypoint : gmap string pyval) : Core.call :=
  (PStr "GOTO",
   {[ "x" := default (PNum 0) (waypoint !! "x");
      "y" := default (PNum 0) (waypoint !! "y");
      "z" := default (PNum 10) (waypoint !! "z");
      "speed" := default (PNum 5) (waypoint !! "speed") ]}).

(** A client that answers every GOTO with a success. *)
Definition accepts (vehicle : Core.Client) : Prop :=
  forall history params, exists answer success,
    Core.send_command vehicle history (PStr "GOTO", params) = Ok answer /\
    Py.get answer "success" PNone = Ok success /\
    Py.truthy success = true.

(** The safety level each emergency of [check_emergency] is reported
    with. *)
Definition level_of (e : Slom.emergency) : Slom.SafetyLevel :=
  if String.eqb (Slom.type e) "low_battery" then
    if String.eqb (Slom.severity e) "critical" then Slom.EMERGENCY else Slom.WARNING
  else if String.eqb (Slom.type e) "signal_lost" then Slom.CRITICAL
  else Slom.WARNING.

(** A tool that differs from another in its safety level at most. *)
Definition same_settings (tool tool' : Slom.SlomTool) : Prop :=
  Slom.thresholds tool' = Slom.thresholds tool /\ Slom.geofence tool' = Slom.geofence tool.

(** What a single check of [check_emergency] may do: report an emergency
    at its level, or pass on with the level left alone or at CAUTION; a
    check that raises may also have set WARNING already. *)
Definition passes_on (c : Slom.check) : Prop :=
  forall tool,
    same_settings tool (c tool).1 /\
    match (c tool).2 with
    | Ok (Some e) => Slom.safety_level (c tool).1 = level_of e
    | Ok None => Slom.safety_level (c tool).1 = Slom.safety_level tool \/
                 Slom.safety_level (c tool).1 = Slom.CAUTION
    | Raise _ => Slom.safety_level (c tool).1 = Slom.safety_level tool \/
                 Slom.safety_level (c tool).1 = Slom.CAUTION \/
                 Slom.safety_level (c tool).1 = Slom.WARNING
    end.

(** What the whole chain does. *)
Definition settles (c : Slom.check) : Prop :=
  forall tool,
    same_settings tool (c tool).1 /\
    match (c tool).2 with
    | Ok (Some e) => Slom.safety_level (c tool).1 = level_of e
    | Ok None => Slom.safety_level (c tool).1 = Slom.NORMAL
    | Raise _ => Slom.safety_level (c tool).1 = Slom.safety_level tool \/
                 Slom.safety_level (c tool).1 = Slom.CAUTION \/
                 Slom.safety_level (c tool).1 = Slom.WARNING
    end.

(** ** Further concrete inputs *)

Module Scenarios.

(** A rule of low rank on the battery, and one that outranks every built-in
    rule. *)
Definition conserve : DecisionMaker.safety_rule :=
  DecisionMaker.SafetyRule "conserve"
    (fun telemetry => b ← Py.get telemetry "battery" (PNum 100); Py.lt b (PNum 50))
    (Decision (PStr "HOVER") None ReasonAwaitingCommands "low")
    50.

Definition storm : DecisionMaker.safety_rule :=
  DecisionMaker.SafetyRule "storm"
    (fun telemetry => w ← Py.get telemetry "wind_speed" (PNum 0); Py.gt w (PNum 10))
    (Decision (PStr "LAND") None ReasonHighWind "critical")
    300.

(** An obstacle at 1 m. *)
Definition touching : pyval := PDict {[ "x" := PNum 1; "distance" := PNum 1 ]}.

(** The waypoints of the survey mission. *)
Definition route : list (gmap string pyval) :=
  [ {[ "x" := PNum 0; "y" := PNum 0; "z" := PNum 1 ]};
    {[ "x" := PNum 30; "y" := PNum 40; "z" := PNum 0 ]};
    {[ "x" := PNum 60; "y" := PNum 80; "z" := PNum 0 ]} ].

(** A perception with a weak signal and a good battery. *)
Definition faint : gmap string pyval :=
  {[ "telemetry" := PDict {[ "battery" := PNum 80; "signal_strength" := PNum 10 ]} ]}.

(** A sub-agent that advises to land, and an agent configured to listen
    to it. *)
Definition advice : gmap string pyval :=
  {[ "suggest_change" := PBool true; "suggested_command" := PStr "LAND";
     "reason" := PStr "wind" ]}.

Definition advised : Core.Collaborators :=
  {| Core.client := Some Examples.compliant;
     Core.review_decision := fun _ _ => PDict advice;
     Core.store_report := fun _ => Ok ();
     Core.emergency_stop_requested := fun _ => false |}.

Definition supervised : Core.Agent :=
  Core.new_agent {[ "sub_agent" := PDict {[ "enabled" := PBool true ]} ]} None.

(** No vehicle at all. *)
Definition offline : Core.Collaborators :=
  {| Core.client := None;
     Core.review_decision := fun _ _ => PDict ∅;
     Core.store_report := fun _ => Ok ();
     Core.emergency_stop_requested := fun _ => false |}.

(** The simulated vehicle. *)
Definition in_simulation : Core.Collaborators :=
  {| Core.client := Some (Sim.client (fun _ => "?") (fun _ => Ok (PDict ∅)));
     Core.review_decision := fun _ _ => PDict ∅;
     Core.store_report := fun _ => Ok ();
     Core.emergency_stop_requested := fun _ => false |}.

End Scenarios.
(** * Verification *)

(** ** The order of floats *)

Section SpecFloatOrder.

Ltac compare_cases :=
  repeat match goal with
         | H : context [Z.compare ?a ?b] |- _ => destruct (Z.compare_spec a b)
         | |- context [Z.compare ?a ?b] => destruct (Z.compare_spec a b)
         | H : context [Pos.compare ?a ?b] |- _ => destruct (Pos.compare_spec a b)
         | |- context [Pos.compare ?a ?b] => destruct (Pos.compare_spec a b)
         end;
  simpl in *; try discriminate; try reflexivity; try lia.

Lemma SFcompare_Lt_Gt (a b : spec_float) :
  SFcompare a b = Some Lt -> SFcompare b a = Some Gt.
Proof.
  destruct a as [[]|[]| |[] m1 e1], b as [[]|[]| |[] m2 e2]; simpl;
    try discriminate; try reflexivity;
    change (PosDef.Pos.compare_cont Eq m1 m2) with (Pos.compare m1 m2);
    change (PosDef.Pos.compare_cont Eq m2 m1) with (Pos.compare m2 m1);
    intros H; compare_cases.
Qed.

Lemma SFcompare_Lt_trans (a b c : spec_float) :
  SFcompare a b = Some Lt -> SFcompare b c = Some Lt -> SFcompare a c = Some Lt.
Proof.
  destruct a as [[]|[]| |[] m1 e1], b as [[]|[]| |[] m2 e2], c as [[]|[]| |[] m3 e3];
    simpl; try discriminate; try reflexivity;
    change (PosDef.Pos.compare_cont Eq m1 m2) with (Pos.compare m1 m2);
    change (PosDef.Pos.compare_cont Eq m2 m3) with (Pos.compare m2 m3);
    change (PosDef.Pos.compare_cont Eq m1 m3) with (Pos.compare m1 m3);
    intros H1 H2; compare_cases.
Qed.

End SpecFloatOrder.

Lemma float_lt_asym (x y : float) : (x <? y)%float = true -> (y <? x)%float = false.
Proof.
  rewrite !FloatAxioms.ltb_spec. unfold SFltb. intros H.
  destruct (SFcompare (Prim2SF x) (Prim2SF y)) as [[]|] eqn:E; try discriminate.
  now rewrite (SFcompare_Lt_Gt _ _ E).
Qed.

Lemma float_lt_neq (x y : float) : (x <? y)%float = true -> (y =? x)%float = false.
Proof.
  rewrite FloatAxioms.ltb_spec, FloatAxioms.eqb_spec. unfold SFltb, SFeqb. intros H.
  destruct (SFcompare (Prim2SF x) (Prim2SF y)) as [[]|] eqn:E; try discriminate.
  now rewrite (SFcompare_Lt_Gt _ _ E).
Qed.

Lemma float_lt_trans (x y z : float) :
  (x <? y)%float = true -> (y <? z)%float = true -> (x <? z)%float = true.
Proof.
  rewrite !FloatAxioms.ltb_spec. unfold SFltb. intros H1 H2.
  destruct (SFcompare (Prim2SF x) (Prim2SF y)) as [[]|] eqn:E1; try discriminate.
  destruct (SFcompare (Prim2SF y) (Prim2SF z)) as [[]|] eqn:E2; try discriminate.
  now rewrite (SFcompare_Lt_trans _ _ _ E1 E2).
Qed.

(** ** The order of Python values *)

Lemma string_ltb_trans (s t u : string) :
  String.ltb s t = true -> String.ltb t u = true -> String.ltb s u = true.
Proof.
  unfold String.ltb. intros H1 H2.
  destruct (String.compare s t) eqn:E1; try discriminate.
  destruct (String.compare t u) eqn:E2; try discriminate.
  apply String_as_OT.cmp_lt in E1, E2.
  pose proof (String_as_OT.lt_trans _ _ _ E1 E2) as E3.
  apply String_as_OT.cmp_lt in E3. unfold String_as_OT.cmp in E3. now rewrite E3.
Qed.


Lemma lt_numbers (a b : pyval) (x y : float) :
  Py.number a = Some x -> Py.number b = Some y -> Py.lt a b = Ok (x <? y)%float.
Proof.
  intros Ha Hb. unfold Py.lt. rewrite Ha, Hb.
  destruct a; try discriminate; reflexivity.
Qed.

Lemma lt_true_inv (a b : pyval) :
  Py.lt a b = Ok true ->
  (exists s t, a = PStr s /\ b = PStr t /\ String.ltb s t = true) \/
  (exists x y, Py.number a = Some x /\ Py.number b = Some y /\ (x <? y)%float = true).
Proof.
  destruct a, b; simpl; try discriminate; intros [= H];
    first [ left; eexists _, _; split_and!; [reflexivity..|exact H]
          | right; eexists _, _; split_and!; [reflexivity..|exact H] ].
Qed.

Lemma lt_trans (a b c : pyval) :
  Py.lt a b = Ok true -> Py.lt b c = Ok true -> Py.lt a c = Ok true.
Proof.
  intros Hab Hbc.
  destruct (lt_true_inv _ _ Hab) as [(s & t & -> & -> & H1)|(x & y & Ha & Hb & H1)];
    destruct (lt_true_inv _ _ Hbc) as [(t' & u & Et & -> & H2)|(y' & z & Hb' & Hc & H2)];
    try discriminate.
  - injection Et as <-. simpl. f_equal. eauto using string_ltb_trans.
  - subst b. discriminate.
  - rewrite Hb in Hb'. injection Hb' as <-.
    rewrite (lt_numbers _ _ _ _ Ha Hc). f_equal. eauto using float_lt_trans.
Qed.


Lemma norm3_number (a b c v : pyval) : Py.norm3 a b c = Ok v -> exists f, v = PNum f.
Proof.
  unfold Py.norm3, Py.pow_half. intros H.
  destruct (Py.pow2 a); [|discriminate]. simpl in H.
  destruct (Py.pow2 b); [|discriminate]. simpl in H.
  destruct (Py.add _ _); [|discriminate]. simpl in H.
  destruct (Py.pow2 c); [|discriminate]. simpl in H.
  destruct (Py.add _ _) as [sum|]; [|discriminate]. simpl in H.
  destruct (Py.number sum); [|discriminate].
  destruct (_ <? _)%float; [discriminate|]. injection H as <-. eauto.
Qed.

(** ** The safety rules *)

Lemma insert_rule_perm r l : DecisionMaker.insert_rule r l ≡ₚ r :: l.
Proof.
  induction l as [|r' rest IH]; simpl; [reflexivity|].
  destruct (_ <=? _)%Z; [reflexivity|].
  rewrite IH. apply Permutation_swap.
Qed.

Lemma sorted_rules_perm l : DecisionMaker.sorted_rules l ≡ₚ l.
Proof.
  induction l as [|r rest IH]; simpl; [reflexivity|].
  rewrite insert_rule_perm. now rewrite IH.
Qed.

Lemma insert_rule_sorted r l :
  Sorted outranks l -> Sorted outranks (DecisionMaker.insert_rule r l).
Proof.
  induction 1 as [|r' rest Hs IH Hh]; simpl.
  - repeat constructor.
  - destruct (Z.leb_spec (DecisionMaker.rank r') (DecisionMaker.rank r)).
    + repeat constructor; assumption.
    + constructor; [exact IH|].
      destruct Hh as [|r'' rest' Hr]; simpl.
      * constructor. unfold outranks. lia.
      * destruct (Z.leb_spec (DecisionMaker.rank r'') (DecisionMaker.rank r));
          constructor; unfold outranks in *; lia.
Qed.

Lemma sorted_rules_sorted l : Sorted outranks (DecisionMaker.sorted_rules l).
Proof.
  induction l as [|r rest IH]; simpl; [constructor|].
  apply insert_rule_sorted, IH.
Qed.

Lemma sorted_rules_builtin :
  DecisionMaker.name <$> DecisionMaker.sorted_rules DecisionMaker._init_safety_rules
  = ["critical_battery"; "low_battery"; "signal_lost"; "obstacle_detected"; "high_wind"].
Proof. reflexivity. Qed.

(** C3.  Whenever the battery reading of a telemetry dictionary is below 10,
    the built-in safety rules, tried in descending order of rank up to the
    first match, answer LAND with priority critical, whatever the other
    entries of the dictionary are. *)
Theorem battery_critical_dominance (telemetry : gmap string pyval) (battery : pyval) :
  telemetry !! "battery" = Some battery ->
  Py.lt battery (PNum 10) = Ok true ->
  DecisionMaker._check_safety_rules DecisionMaker._init_safety_rules (PDict telemetry)
  = Some (Decision (PStr "LAND") None ReasonCriticalBattery "critical").
Proof.
  intros Hb Hlt.
  unfold DecisionMaker._check_safety_rules, DecisionMaker._init_safety_rules.
  cbn. rewrite Hb. cbn. rewrite Hlt. reflexivity.
Qed.

Lemma battery_critical_dominance_witness :
  DecisionMaker._check_safety_rules DecisionMaker._init_safety_rules (PDict Examples.failing)
  = Some (Decision (PStr "LAND") None ReasonCriticalBattery "critical").
Proof.
  apply (battery_critical_dominance Examples.failing (PNum 5)); vm_compute; reflexivity.
Defined.

(** ** The obstacle handler *)


Section MinLoop.

Variable key : pyval -> result pyval.



End MinLoop.








Lemma get_no_zero_division v k d : Py.get v k d <> Raise ZeroDivisionError.
Proof. destruct v; simpl; congruence. Qed.

Lemma norm3_no_zero_division a b c : Py.norm3 a b c <> Raise ZeroDivisionError.
Proof.
  unfold Py.norm3, Py.pow2, Py.add, Py.arith, Py.pow_half.
  repeat (simpl; match goal with
          | |- context [match ?x with _ => _ end] => destruct x
          end); simpl; congruence.
Qed.

Lemma neg_no_zero_division a : Py.neg a <> Raise ZeroDivisionError.
Proof. unfold Py.neg. destruct (Py.number a); congruence. Qed.

Lemma lt_no_zero_division a b : Py.lt a b <> Raise ZeroDivisionError.
Proof.
  unfold Py.lt. destruct a, b; simpl; congruence.
Qed.

Lemma div_positive (a : pyval) (n : float) :
  (0 <? n)%float = true -> Py.div a (PNum n) <> Raise ZeroDivisionError.
Proof.
  intros Hn. unfold Py.div. simpl. rewrite (float_lt_neq _ _ Hn).
  destruct (Py.number a); congruence.
Qed.

(** C8.  The avoidance direction never fails with a division by zero,
    whatever the obstacle; and for an obstacle whose coordinates have norm
    zero (it sits where the agent is) the direction is (1, 0, 0). *)
Theorem zero_vector_safety (obstacle : pyval) :
  DecisionMaker._calculate_avoidance_direction obstacle <> Raise ZeroDivisionError /\
  (forall (x y z : pyval) (n : float),
      Py.get obstacle "x" (PNum 0) = Ok x ->
      Py.get obstacle "y" (PNum 0) = Ok y ->
      Py.get obstacle "z" (PNum 0) = Ok z ->
      Py.norm3 x y z = Ok (PNum n) ->
      (n =? 0)%float = true ->
      DecisionMaker._calculate_avoidance_direction obstacle
      = Ok {[ "x" := PNum 1; "y" := PNum 0; "z" := PNum 0 ]}).
Proof.
  unfold DecisionMaker._calculate_avoidance_direction. split.
  - destruct (Py.get obstacle "x" _) as [x|e] eqn:Ex; simpl;
      [|intros [= ->]; exact (get_no_zero_division _ _ _ Ex)].
    destruct (Py.get obstacle "y" _) as [y|e] eqn:Ey; simpl;
      [|intros [= ->]; exact (get_no_zero_division _ _ _ Ey)].
    destruct (Py.get obstacle "z" _) as [z|e] eqn:Ez; simpl;
      [|intros [= ->]; exact (get_no_zero_division _ _ _ Ez)].
    destruct (Py.norm3 x y z) as [distance|e] eqn:En; simpl;
      [|intros [= ->]; exact (norm3_no_zero_division _ _ _ En)].
    destruct (norm3_number _ _ _ _ En) as [n ->].
    unfold Py.gt. simpl. destruct (0 <? n)%float eqn:Hn; [|discriminate].
    destruct (Py.neg x) as [nx|e] eqn:Enx; simpl;
      [|intros [= ->]; exact (neg_no_zero_division _ Enx)].
    destruct (Py.div nx (PNum n)) as [dx|e] eqn:Edx; simpl;
      [|intros [= ->]; exact (div_positive _ _ Hn Edx)].
    destruct (Py.neg y) as [ny|e] eqn:Eny; simpl;
      [|intros [= ->]; exact (neg_no_zero_division _ Eny)].
    destruct (Py.div ny (PNum n)) as [dy|e] eqn:Edy; simpl;
      [discriminate|intros [= ->]; exact (div_positive _ _ Hn Edy)].
  - intros x y z n Ex Ey Ez En Hn.
    rewrite Ex; simpl; rewrite Ey; simpl; rewrite Ez; simpl; rewrite En; simpl.
    unfold Py.gt. simpl.
    destruct (0 <? n)%float eqn:Hlt; [|reflexivity].
    rewrite (float_lt_neq _ _ Hlt) in Hn. discriminate.
Qed.

(** An obstacle at the agent's position, with or without explicit
    coordinates. *)
Example direction_at_origin :
  DecisionMaker._calculate_avoidance_direction Slom.origin
  = Ok {[ "x" := PNum 1; "y" := PNum 0; "z" := PNum 0 ]}
  /\ DecisionMaker._calculate_avoidance_direction (PDict {[ "distance" := PNum 0 ]})
     = Ok {[ "x" := PNum 1; "y" := PNum 0; "z" := PNum 0 ]}.
Proof. split; vm_compute; reflexivity. Qed.

(** ** The mission navigator *)

Lemma calculate_distance_number (p q v : pyval) :
  DecisionMaker._calculate_distance p q = Ok v -> exists f, v = PNum f.
Proof.
  unfold DecisionMaker._calculate_distance. intros H.
  repeat match type of H with
         | mbind _ ?r = _ => destruct r; simpl in H; [|discriminate]
         end.
  eauto using norm3_number.
Qed.

(** The waypoint the search returns is farther than 2.0 from the position. *)
Lemma first_unreached_far (pos : pyval) (items : list pyval) (wp : pyval) :
  DecisionMaker.first_unreached pos items = Ok (Some wp) ->
  exists f, DecisionMaker._calculate_distance pos wp = Ok (PNum f) /\ (2 <? f)%float = true.
Proof.
  induction items as [|x rest IH]; simpl; [discriminate|].
  destruct (DecisionMaker._calculate_distance pos x) as [d|] eqn:Ed; [|discriminate]. simpl.
  destruct (calculate_distance_number _ _ _ Ed) as [f ->].
  unfold Py.gt. simpl. destruct (2 <? f)%float eqn:Hf; [|exact IH].
  intros [= <-]. eauto.
Qed.

(** C10.  Whatever the perception and the mission, a decision the navigator
    returns has command HOVER, RTL or GOTO: the target it measures is one
    the search found farther than 2.0, so the [WAYPOINT_REACHED] branch is
    never taken. *)
Theorem navigation_never_reports_arrival (perception : pyval) (mission : mission_arg)
    (d : decision) :
  DecisionMaker._navigate_mission perception mission = Ok d ->
  command d = PStr "HOVER" \/ command d = PStr "RTL" \/ command d = PStr "GOTO".
Proof.
  unfold DecisionMaker._navigate_mission, DecisionMaker._find_next_waypoint. intros H.
  destruct (Py.get perception "telemetry" _) as [telemetry|]; [|discriminate]. simpl in H.
  destruct (Py.get telemetry "position" _) as [pos|]; [|discriminate]. simpl in H.
  destruct (match mission with MissionObject m => _ | MissionValue v => _ end)
    as [wps|]; [|discriminate]. simpl in H.
  destruct (Py.truthy wps); simpl in H; [|injection H as <-; auto].
  destruct (Py.iter wps) as [items|]; [|discriminate]. simpl in H.
  destruct (DecisionMaker.first_unreached pos items) as [[target|]|] eqn:Ef;
    [| |discriminate]; simpl in H; [|injection H as <-; auto].
  destruct (first_unreached_far _ _ _ Ef) as (f & Hd & Hf).
  rewrite Hd in H. simpl in H. rewrite (float_lt_asym _ _ Hf) in H. simpl in H.
  repeat match type of H with
         | mbind _ ?r = _ => destruct r; simpl in H; [|discriminate]
         end.
  injection H as <-. auto.
Qed.

Lemma navigation_never_reports_arrival_witness :
  DecisionMaker._navigate_mission Examples.healthy (MissionObject Examples.survey)
  = Ok (Decision (PStr "GOTO")
          (Some {[ "x" := PNum 30; "y" := PNum 40; "z" := PNum 0; "speed" := PNum 5 ]})
          (ReasonMovingToWaypoint (PNum 50)) "medium")
  /\ (PStr "GOTO" = PStr "HOVER" \/ PStr "GOTO" = PStr "RTL" \/ PStr "GOTO" = PStr "GOTO").
Proof.
  split; [vm_compute; reflexivity|].
  apply (navigation_never_reports_arrival Examples.healthy (MissionObject Examples.survey)
           (Decision (PStr "GOTO")
              (Some {[ "x" := PNum 30; "y" := PNum 40; "z" := PNum 0; "speed" := PNum 5 ]})
              (ReasonMovingToWaypoint (PNum 50)) "medium")).
  vm_compute; reflexivity.
Defined.

(** ** The geofence *)




(** ** The state update of the agent *)

(** C1 fails as stated.  (EMERGENCY, TAKEOFF) is not a pair of the table,
    yet acting on TAKEOFF in state EMERGENCY leaves the agent FLYING. *)
Lemma act_from_emergency_counterexample :
  listed Core.EMERGENCY (PStr "TAKEOFF") = false
  /\ Core.state Examples.stopped = Core.EMERGENCY
  /\ Core.state (Core.act Examples.simulated Examples.stopped Examples.takeoff).1
     = Core.FLYING.
Proof. vm_compute. repeat split; reflexivity. Qed.

Lemma dispatch_state w a c offline :
  Core.state (Core.dispatch w a c offline).1 = Core.state a.
Proof. unfold Core.dispatch. destruct (Core.client w); reflexivity. Qed.

Lemma notify_action_state a action answer :
  Core.state (Core.notify_action a action answer).1 = Core.state a.
Proof.
  unfold Core.notify_action.
  destruct (Py.get answer "success" _) as [success|]; [|reflexivity].
  destruct (Py.truthy success); [reflexivity|].
  destruct (Py.get answer "error" _); reflexivity.
Qed.

(** C1, amended.  The state update of [act] is a total function of the
    command alone: unless the dispatch raises, TAKEOFF, GOTO and FOLLOW_PATH
    leave the agent FLYING and LAND and RTL leave it LANDING, from every
    state, and every other command leaves the state as it was; when the
    dispatch raises the state is unchanged. *)
Theorem act_state_update (w : Core.Collaborators) (a : Core.Agent) (d : decision) :
  Core.state (Core.act w a d).1 =
    if dispatch_raises w a d then Core.state a
    else if Py.among (command d) ["TAKEOFF"; "GOTO"; "FOLLOW_PATH"] then Core.FLYING
    else if Py.among (command d) ["LAND"; "RTL"] then Core.LANDING
    else Core.state a.
Proof.
  unfold Core.act, Core.dispatch, dispatch_raises.
  destruct (Core.client w) as [vehicle|]; simpl.
  - destruct (Core.send_command vehicle _ _) as [answer|e]; simpl; [|reflexivity].
    pose proof (notify_action_state
                  (Core.set_state
                     (Core.set_dispatched a
                        (Core.dispatched a ++ [(command d, default ∅ (params d))]))
                     (Core.next_state (Core.state a) (command d)))
                  (command d) answer) as Hn.
    destruct (Core.notify_action _ _ _) as [a' [[]|e]]; exact Hn.
  - pose proof (notify_action_state
                  (Core.set_state a (Core.next_state (Core.state a) (command d)))
                  (command d) (Core.failure (PStr "Нет подключения к дрону"))) as Hn.
    destruct (Core.notify_action _ _ _) as [a' [[]|e]]; exact Hn.
Qed.

(** ** The decision pipeline *)

(** C2 fails as stated.  In the middle of a mission, with the battery at 5,
    [decide] answers RTL with priority high, not critical, with or without
    the safety tool. *)
Lemma low_battery_priority_counterexample :
  (Core.decide Examples.simulated Examples.on_mission Examples.drained).2
  = Ok (Decision (PStr "RTL") None ReasonLowBattery "high")
  /\ (exists e,
        (Core.decide Examples.simulated Examples.guarded_on_mission Examples.drained).2
        = Ok (Decision (PStr "RTL") None (ReasonEmergency e) "high"))
  /\ "high" <> "critical".
Proof.
  split; [vm_compute; reflexivity|]. split; [|discriminate].
  eexists. vm_compute. reflexivity.
Qed.

Lemma check_emergency_battery_5 (perception telemetry : gmap string pyval) :
  perception !! "telemetry" = Some (PDict telemetry) ->
  telemetry !! "battery" = Some (PNum 5) ->
  Core._check_emergency (PDict perception)
  = Ok (Some (Core.Alarm "low_battery" "high" {[ "battery" := PNum 5 ]})).
Proof.
  intros Ht Hb. unfold Core._check_emergency. simpl. rewrite Ht. simpl. rewrite Hb.
  reflexivity.
Qed.

(** A safety tool whose critical battery threshold is above 5, as the default
    15 is, completes its check on a battery at 5. *)
Lemma slom_completes_above_5 (tool : Slom.SlomTool) (c : float)
    (perception telemetry : gmap string pyval) :
  Slom.thresholds tool !! "battery_critical" = Some (PNum c) ->
  (5 <? c)%float = true ->
  perception !! "telemetry" = Some (PDict telemetry) ->
  telemetry !! "battery" = Some (PNum 5) ->
  raises (Slom.check_emergency tool (PDict perception)).2 = false.
Proof.
  intros Hc Hlt Ht Hb. unfold Slom.check_emergency. simpl. rewrite Ht. simpl.
  unfold Slom.and_then at 1. unfold Slom.check_battery, Slom.threshold. simpl.
  rewrite Hb, Hc. simpl. rewrite Hlt. reflexivity.
Qed.

(** C2, amended.  For every perception whose telemetry has battery = 5, and
    whether or not a mission is active, [decide] answers RTL with priority
    high, never a GOTO, provided the safety tool, if there is one, completes
    its own check. *)
Theorem low_battery_preempts_mission (w : Core.Collaborators) (a : Core.Agent)
    (perception telemetry : gmap string pyval) :
  telemetry_ready a ->
  perception !! "telemetry" = Some (PDict telemetry) ->
  telemetry !! "battery" = Some (PNum 5) ->
  slom_completes a (PDict perception) ->
  exists r, (Core.decide w a (PDict perception)).2
            = Ok (Decision (PStr "RTL") None r "high").
Proof.
  intros ([p Hp] & [v Hv] & [b Hb]) Ht Hbat Hslom.
  unfold Core.decide, Core.decide_body, Core.updated_telemetry. simpl.
  rewrite Hp, Hv, Hb. simpl.
  unfold slom_completes in Hslom.
  destruct (Core.slom a) as [tool|]; simpl.
  - destruct (Slom.check_emergency tool (PDict perception)) as [tool' [[e|]|e]];
      simpl in *; [eauto| |discriminate].
    rewrite (check_emergency_battery_5 _ _ Ht Hbat). simpl. eauto.
  - rewrite (check_emergency_battery_5 _ _ Ht Hbat). simpl. eauto.
Qed.

Lemma low_battery_preempts_mission_witness :
  exists r, (Core.decide Examples.simulated Examples.guarded_on_mission Examples.drained).2
            = Ok (Decision (PStr "RTL") None r "high").
Proof.
  apply (low_battery_preempts_mission Examples.simulated Examples.guarded_on_mission
           {[ "telemetry" := PDict {[ "battery" := PNum 5; "position" := Slom.origin ]} ]}
           {[ "battery" := PNum 5; "position" := Slom.origin ]}).
  - repeat split; vm_compute; eauto.
  - reflexivity.
  - reflexivity.
  - vm_compute. reflexivity.
Defined.

(** C4.  [decide] always returns a decision: whatever the perception and
    whatever the collaborators answer, no exception leaves it, and whenever
    anything inside raises, the decision is the fallback, HOVER with
    priority medium. *)
Theorem decide_never_raises (w : Core.Collaborators) (a : Core.Agent) (perception_data : pyval) :
  exists d, (Core.decide w a perception_data).2 = Ok d /\
    (raises (Core.decide_body w a perception_data).2 = true ->
     d = Decision (PStr "HOVER") None ReasonFallback "medium").
Proof.
  unfold Core.decide.
  destruct (Core.decide_body w a perception_data) as [a' [d|e]]; simpl.
  - exists d. split; [reflexivity|discriminate].
  - eexists. split; reflexivity.
Qed.

(** Inputs that make a component raise: a battery reading that is no number
    stops the agent's own emergency check, a perception that is no
    dictionary stops the telemetry update, and an advice that is no
    dictionary stops the consultation of the sub-agent. *)
Example fallback_on_garbled_battery :
  raises (Core.decide_body Examples.simulated Examples.on_mission Examples.garbled).2 = true
  /\ (Core.decide Examples.simulated Examples.on_mission Examples.garbled).2
     = Ok (Decision (PStr "HOVER") None ReasonFallback "medium").
Proof. vm_compute. split; reflexivity. Qed.

Example fallback_on_malformed_perception :
  (Core.decide Examples.simulated Examples.guarded_on_mission (PList [])).2
  = Ok (Decision (PStr "HOVER") None ReasonFallback "medium").
Proof. vm_compute. reflexivity. Qed.

(** ** The mission loop *)

(** C5 fails as stated.  When the first GOTO of a mission raises, LAND is
    dispatched, the state is READY again and no exception leaves
    [run_mission]; but nothing is returned and the mission history is as
    empty as before: no record marks the mission failed. *)
Lemma mission_failure_counterexample :
  raises (Core.mission_body Examples.unreliable
            (Core.start_mission Examples.ready Examples.survey) Examples.survey).2 = true
  /\ (Core.run_mission Examples.unreliable Examples.ready Examples.survey).2 = Ok None
  /\ Core.mission_history
       (Core.run_mission Examples.unreliable Examples.ready Examples.survey).1 = []
  /\ ~ failure_recorded Examples.ready
         (Core.run_mission Examples.unreliable Examples.ready Examples.survey).1 None.
Proof.
  split; [vm_compute; reflexivity|]. split; [vm_compute; reflexivity|].
  assert (Core.mission_history
            (Core.run_mission Examples.unreliable Examples.ready Examples.survey).1 = [])
    as H by (vm_compute; reflexivity).
  split; [exact H|].
  intros [(r & Hr & _)|(r & Hr & _)]; [discriminate|].
  rewrite H in Hr. inversion Hr.
Qed.

Lemma dispatch_history w a c offline :
  Core.mission_history (Core.dispatch w a c offline).1 = Core.mission_history a.
Proof. unfold Core.dispatch. destruct (Core.client w); reflexivity. Qed.

Lemma perceive_history w a :
  Core.mission_history (Core.perceive w a).1 = Core.mission_history a.
Proof.
  unfold Core.perceive. destruct (Core.client w) as [vehicle|]; [|reflexivity].
  simpl. destruct (_ ← Core.get_telemetry vehicle _; _) as [[t merged]|]; reflexivity.
Qed.

Lemma goto_waypoint_history w a waypoint :
  Core.mission_history (Core._goto_waypoint w a waypoint).1 = Core.mission_history a.
Proof.
  unfold Core._goto_waypoint.
  destruct (_ ← Py.get waypoint "x" _; _) as [ps|]; [apply dispatch_history|reflexivity].
Qed.

Lemma record_waypoint_history w a mission data waypoint :
  Core.mission_history (Core.record_waypoint w a mission data waypoint).1
  = Core.mission_history a.
Proof.
  unfold Core.record_waypoint, Core._collect_waypoint_data.
  destruct (data_collection mission); [|reflexivity].
  pose proof (perceive_history w a) as H.
  destruct (Core.perceive w a) as [a' perception]. simpl in *.
  destruct (_ ← Py.get perception "telemetry" _; _); exact H.
Qed.

Lemma waypoint_loop_history w mission (remaining : list pyval) :
  forall a data i,
    Core.mission_history (Core.waypoint_loop w a mission data i remaining).1
    = Core.mission_history a.
Proof.
  induction remaining as [|waypoint rest IH]; intros a data i; simpl; [reflexivity|].
  destruct (bool_decide _); [reflexivity|].
  pose proof (goto_waypoint_history w a waypoint) as Hg.
  destruct (Core._goto_waypoint w a waypoint) as [a1 [answer|]]; simpl in *; [|exact Hg].
  destruct (Py.get answer "success" PNone) as [success|]; [|exact Hg].
  destruct (Py.truthy success).
  - pose proof (record_waypoint_history w a1 mission data waypoint) as Hr.
    destruct (Core.record_waypoint w a1 mission data waypoint) as [a2 [data2|]];
      simpl in *; [|congruence].
    rewrite IH. destruct (Core.emergency_stop_requested w i); simpl; congruence.
  - rewrite IH. destruct (Core.emergency_stop_requested w i); simpl; congruence.
Qed.

(** A mission body that raises has not touched the mission history. *)
Lemma mission_body_history w a mission :
  raises (Core.mission_body w a mission).2 = true ->
  Core.mission_history (Core.mission_body w a mission).1 = Core.mission_history a.
Proof.
  unfold Core.mission_body.
  destruct (Py.iter (waypoints mission)) as [items|]; [|reflexivity].
  pose proof (waypoint_loop_history w mission items a (Core.MissionData [] [] []) 0) as Hl.
  destruct (Core.waypoint_loop _ _ _ _ _ _) as [a1 [data|]]; simpl in *; [|auto].
  unfold Core._complete_mission.
  destruct (_ ← Py.len _; _) as [r|]; simpl; [discriminate|auto].
Qed.

(** [act] always returns, keeps the mission history, and hands its command
    to the client when one is connected. *)
Lemma act_effects w a d :
  exists answer,
    (Core.act w a d).2 = Ok answer /\
    Core.mission_history (Core.act w a d).1 = Core.mission_history a /\
    (is_Some (Core.client w) ->
     Core.dispatched (Core.act w a d).1
     = (Core.dispatched a ++ [(command d, default ∅ (params d))])%list).
Proof.
  unfold Core.act, Core.dispatch, Core.notify_action.
  destruct (Core.client w) as [vehicle|]; simpl.
  - destruct (Core.send_command vehicle _ _) as [answer|]; simpl.
    + destruct (Py.get answer "success" _) as [success|]; simpl; [|eauto].
      destruct (Py.truthy success); simpl; [eauto|].
      destruct (Py.get answer "error" _); simpl; eauto.
    + eauto.
  - eexists. split_and!; [reflexivity..|]. intros [? [=]].
Qed.

(** C5, amended.  When the body of the mission raises, the failure handler
    calls [act] with LAND, which hands LAND to the client if one is
    connected; the state is READY and no mission is current afterwards; no
    exception leaves [run_mission]; nothing is returned and the mission
    history is unchanged. *)
Theorem mission_failure_absorbed (w : Core.Collaborators) (a : Core.Agent)
    (mission : MissionParams) :
  raises (Core.mission_body w (Core.start_mission a mission) mission).2 = true ->
  (Core.run_mission w a mission).2 = Ok None /\
  Core.state (Core.run_mission w a mission).1 = Core.READY /\
  Core.current_mission (Core.run_mission w a mission).1 = None /\
  Core.mission_history (Core.run_mission w a mission).1 = Core.mission_history a /\
  (is_Some (Core.client w) ->
   exists earlier,
     Core.dispatched (Core.run_mission w a mission).1 = (earlier ++ [(PStr "LAND", ∅)])%list).
Proof.
  intros Hraise. unfold Core.run_mission.
  pose proof (mission_body_history w _ mission Hraise) as Hh.
  destruct (Core.mission_body w (Core.start_mission a mission) mission) as [a1 [r|e]];
    [discriminate|]. simpl in Hh.
  unfold Core._handle_mission_failure.
  destruct (act_effects w a1 (Decision (PStr "LAND") None ReasonMissionError "high"))
    as (answer & Hact & Hhist & Hsent).
  destruct (Core.act w a1 _) as [a2 outcome]. simpl in *. subst outcome. simpl.
  split_and!; try reflexivity.
  - congruence.
  - intros Hc. rewrite (Hsent Hc). eauto.
Qed.

Lemma mission_failure_absorbed_witness :
  (Core.run_mission Examples.unreliable Examples.ready Examples.survey).2 = Ok None /\
  Core.state (Core.run_mission Examples.unreliable Examples.ready Examples.survey).1
  = Core.READY /\
  Core.current_mission (Core.run_mission Examples.unreliable Examples.ready Examples.survey).1
  = None /\
  Core.mission_history (Core.run_mission Examples.unreliable Examples.ready Examples.survey).1
  = Core.mission_history Examples.ready /\
  (is_Some (Core.client Examples.unreliable) ->
   exists earlier,
     Core.dispatched (Core.run_mission Examples.unreliable Examples.ready Examples.survey).1
     = (earlier ++ [(PStr "LAND", ∅)])%list).
Proof.
  apply (mission_failure_absorbed Examples.unreliable Examples.ready Examples.survey).
  vm_compute. reflexivity.
Defined.

(** * Further properties *)

(** ** The safety rules as a single pass *)

Lemma first_matching_first_rule rules telemetry :
  DecisionMaker.first_matching rules telemetry
  = DecisionMaker.action <$> first_rule rules telemetry.
Proof.
  induction rules as [|r rest IH]; simpl; [reflexivity|].
  unfold applies. destruct (DecisionMaker.condition r telemetry) as [[]|]; simpl; auto.
Qed.

Lemma first_rule_elem rules telemetry r :
  first_rule rules telemetry = Some r -> r ∈ rules /\ applies telemetry r = true.
Proof.
  induction rules as [|x rest IH]; simpl; [discriminate|].
  destruct (applies telemetry x) eqn:E.
  - intros [= <-]. split; [left|exact E].
  - intros H. destruct (IH H). split; [right|]; assumption.
Qed.

Lemma outranks_trans : Relations_1.Transitive outranks.
Proof. intros x y z. unfold outranks. lia. Qed.

Lemma insert_rule_first_rule r l telemetry :
  Sorted outranks l ->
  first_rule (DecisionMaker.insert_rule r l) telemetry
  = if applies telemetry r then
      match first_rule l telemetry with
      | Some r' =>
          if (DecisionMaker.rank r <? DecisionMaker.rank r')%Z then Some r' else Some r
      | None => Some r
      end
    else first_rule l telemetry.
Proof.
  intros Hs. apply (Sorted_StronglySorted outranks_trans) in Hs.
  induction Hs as [|x rest Hs IH Hall]; simpl.
  - destruct (applies telemetry r); reflexivity.
  - destruct (Z.leb_spec (DecisionMaker.rank x) (DecisionMaker.rank r)) as [Hle|Hgt]; simpl.
    + destruct (applies telemetry r); [|reflexivity].
      destruct (applies telemetry x) eqn:Ex.
      * destruct (Z.ltb_spec (DecisionMaker.rank r) (DecisionMaker.rank x)); [lia|reflexivity].
      * destruct (first_rule rest telemetry) as [r'|] eqn:Er; [|reflexivity].
        apply first_rule_elem in Er as [Hin _].
        rewrite Forall_forall in Hall. apply Hall in Hin.
        unfold outranks in Hin.
        destruct (Z.ltb_spec (DecisionMaker.rank r) (DecisionMaker.rank r')); [lia|reflexivity].
    + rewrite IH. destruct (applies telemetry x) eqn:Ex; [|reflexivity].
      destruct (applies telemetry r); [|reflexivity].
      destruct (Z.ltb_spec (DecisionMaker.rank r) (DecisionMaker.rank x)); [reflexivity|lia].
Qed.

Lemma sorted_rules_first_rule rules telemetry :
  first_rule (DecisionMaker.sorted_rules rules) telemetry = winner rules telemetry.
Proof.
  induction rules as [|r rest IH]; simpl; [reflexivity|].
  rewrite insert_rule_first_rule by apply sorted_rules_sorted.
  now rewrite IH.
Qed.

(** X1.  Sorting the rules by descending rank and taking the first one that
    applies gives the same decision as one pass that retains, among the
    rules that apply, the one of highest rank, the first listed among
    equals; a rule whose condition raises never applies. *)
Theorem check_safety_rules_single_pass (rules : list DecisionMaker.safety_rule)
    (telemetry : pyval) :
  DecisionMaker._check_safety_rules rules telemetry
  = DecisionMaker.action <$> winner rules telemetry.
Proof.
  unfold DecisionMaker._check_safety_rules.
  now rewrite first_matching_first_rule, sorted_rules_first_rule.
Qed.

Lemma winner_spec rules telemetry :
  match winner rules telemetry with
  | Some r =>
      r ∈ rules /\ applies telemetry r = true /\
      forall r', r' ∈ rules -> applies telemetry r' = true ->
                 (DecisionMaker.rank r' <= DecisionMaker.rank r)%Z
  | None => forall r, r ∈ rules -> applies telemetry r = false
  end.
Proof.
  induction rules as [|x rest IH]; simpl.
  - intros r Hr. inversion Hr.
  - destruct (applies telemetry x) eqn:Ex.
    + destruct (winner rest telemetry) as [r'|].
      * destruct IH as (Hin & Hap & Hmax).
        destruct (Z.ltb_spec (DecisionMaker.rank x) (DecisionMaker.rank r')).
        -- split_and!; [right; exact Hin|exact Hap|].
           intros r0 [->|H0]%elem_of_cons Ha; [lia|auto].
        -- split_and!; [left|exact Ex|].
           intros r0 [->|H0]%elem_of_cons Ha; [lia|].
           specialize (Hmax r0 H0 Ha). lia.
      * split_and!; [left|exact Ex|].
        intros r0 [->|H0]%elem_of_cons Ha; [lia|].
        rewrite (IH r0 H0) in Ha. discriminate.
    + destruct (winner rest telemetry) as [r'|].
      * destruct IH as (Hin & Hap & Hmax). split_and!; [right; exact Hin|exact Hap|].
        intros r0 [->|H0]%elem_of_cons Ha; [congruence|auto].
      * intros r0 [->|H0]%elem_of_cons; auto.
Qed.

(** X2.  A decision of the safety check is the action of a listed rule that
    applies and that no applying rule outranks; the check returns nothing
    exactly when no listed rule applies. *)
Theorem check_safety_rules_sound (rules : list DecisionMaker.safety_rule) (telemetry : pyval) :
  match DecisionMaker._check_safety_rules rules telemetry with
  | Some d =>
      exists r, r ∈ rules /\ DecisionMaker.action r = d /\ applies telemetry r = true /\
        forall r', r' ∈ rules -> applies telemetry r' = true ->
                   (DecisionMaker.rank r' <= DecisionMaker.rank r)%Z
  | None => forall r, r ∈ rules -> applies telemetry r = false
  end.
Proof.
  unfold DecisionMaker._check_safety_rules.
  rewrite first_matching_first_rule, sorted_rules_first_rule.
  pose proof (winner_spec rules telemetry) as H.
  destruct (winner rules telemetry) as [r|]; simpl; [|exact H].
  destruct H as (Hin & Hap & Hmax). eauto 6.
Qed.

(** ** Adding rules *)

Lemma winner_app rules new telemetry :
  winner (rules ++ new) telemetry = higher (winner rules telemetry) (winner new telemetry).
Proof.
  induction rules as [|x rest IH]; simpl; [reflexivity|].
  rewrite IH. destruct (applies telemetry x); [|reflexivity].
  destruct (winner rest telemetry) as [r|], (winner new telemetry) as [n|]; simpl;
    try reflexivity;
    repeat match goal with
           | |- context [(?a <? ?b)%Z] => destruct (Z.ltb_spec a b); simpl
           end; try reflexivity; lia.
Qed.

(** X3.  Rules added with [update_rules] cannot take a decision away from
    the rules already there unless one of them outranks them: when every
    new rule that applies is matched in rank by an old rule that applies,
    the safety check decides as before. *)
Theorem update_rules_keeps_decision (rules new : list DecisionMaker.safety_rule)
    (telemetry : pyval) :
  (forall n, n ∈ new -> applies telemetry n = true ->
             exists r, r ∈ rules /\ applies telemetry r = true /\
                       (DecisionMaker.rank n <= DecisionMaker.rank r)%Z) ->
  DecisionMaker._check_safety_rules (DecisionMaker.update_rules rules new) telemetry
  = DecisionMaker._check_safety_rules rules telemetry.
Proof.
  intros Hnew. unfold DecisionMaker._check_safety_rules, DecisionMaker.update_rules.
  rewrite !first_matching_first_rule, !sorted_rules_first_rule, winner_app.
  pose proof (winner_spec new telemetry) as Hn.
  pose proof (winner_spec rules telemetry) as Hr.
  destruct (winner new telemetry) as [n|]; [|destruct (winner rules telemetry); reflexivity].
  destruct Hn as (Hin & Hap & _).
  destruct (Hnew n Hin Hap) as (r & Hrin & Hrap & Hle).
  destruct (winner rules telemetry) as [r0|]; simpl.
  - destruct Hr as (_ & _ & Hmax). specialize (Hmax r Hrin Hrap).
    destruct (Z.ltb_spec (DecisionMaker.rank r0) (DecisionMaker.rank n)); [lia|reflexivity].
  - rewrite (Hr r Hrin) in Hrap. discriminate.
Qed.

Lemma update_rules_keeps_decision_witness :
  DecisionMaker._check_safety_rules
    (DecisionMaker.update_rules DecisionMaker._init_safety_rules [Scenarios.conserve])
    (PDict Examples.failing)
  = DecisionMaker._check_safety_rules DecisionMaker._init_safety_rules (PDict Examples.failing).
Proof.
  apply (update_rules_keeps_decision DecisionMaker._init_safety_rules [Scenarios.conserve]
           (PDict Examples.failing)).
  intros n Hn _. apply list_elem_of_singleton in Hn. subst n.
  eexists. unfold DecisionMaker._init_safety_rules.
  split_and!; [left|vm_compute; reflexivity|simpl; lia].
Defined.

(** X4.  A rule added with [update_rules] that applies and outranks every
    rule already there decides. *)
Theorem update_rules_takes_over (rules : list DecisionMaker.safety_rule)
    (n : DecisionMaker.safety_rule) (telemetry : pyval) :
  applies telemetry n = true ->
  (forall r, r ∈ rules -> (DecisionMaker.rank r < DecisionMaker.rank n)%Z) ->
  DecisionMaker._check_safety_rules (DecisionMaker.update_rules rules [n]) telemetry
  = Some (DecisionMaker.action n).
Proof.
  intros Hap Hlt. unfold DecisionMaker._check_safety_rules, DecisionMaker.update_rules.
  rewrite first_matching_first_rule, sorted_rules_first_rule, winner_app. simpl.
  rewrite Hap. pose proof (winner_spec rules telemetry) as Hr.
  destruct (winner rules telemetry) as [r0|]; simpl; [|reflexivity].
  destruct Hr as (Hin & _). specialize (Hlt r0 Hin).
  destruct (Z.ltb_spec (DecisionMaker.rank r0) (DecisionMaker.rank n)); [reflexivity|lia].
Qed.

Lemma update_rules_takes_over_witness :
  DecisionMaker._check_safety_rules
    (DecisionMaker.update_rules DecisionMaker._init_safety_rules [Scenarios.storm])
    (PDict Examples.failing)
  = Some (DecisionMaker.action Scenarios.storm).
Proof.
  apply (update_rules_takes_over DecisionMaker._init_safety_rules Scenarios.storm
           (PDict Examples.failing)); [vm_compute; reflexivity|].
  intros r Hr. unfold DecisionMaker._init_safety_rules in Hr.
  repeat (apply elem_of_cons in Hr as [->|Hr]); [simpl; lia..|].
  inversion Hr.
Defined.

(** ** The tiers of the obstacle handler *)

(** X5.  Outside the AVOID tier the coordinates of the closest obstacle are
    never read: a distance below 3 gives LAND with priority critical, and a
    distance that is neither below 3 nor below 10 gives no decision. *)
Theorem obstacle_tiers (obstacles : list pyval) (closest distance : pyval) :
  DecisionMaker.closest_obstacle obstacles = Ok closest ->
  Py.get closest "distance" (PNum 100) = Ok distance ->
  (Py.lt distance (PNum 3) = Ok true ->
   DecisionMaker._handle_obstacles (PList obstacles)
   = Ok (Some (Decision (PStr "LAND") None (ReasonObstacleCritical distance) "critical"))) /\
  (Py.lt distance (PNum 3) = Ok false -> Py.lt distance (PNum 10) = Ok false ->
   DecisionMaker._handle_obstacles (PList obstacles) = Ok None).
Proof.
  intros Hc Hd.
  assert (obstacles <> []) as Hne by (intros ->; discriminate).
  unfold DecisionMaker._handle_obstacles. simpl.
  rewrite bool_decide_eq_false_2 by done. simpl. rewrite Hc. simpl. rewrite Hd. simpl.
  split.
  - intros ->. reflexivity.
  - intros -> ->. reflexivity.
Qed.

Lemma obstacle_tiers_witness :
  DecisionMaker._handle_obstacles (PList [Examples.far_away; Scenarios.touching])
  = Ok (Some (Decision (PStr "LAND") None (ReasonObstacleCritical (PNum 1)) "critical")) /\
  DecisionMaker._handle_obstacles (PList [Examples.far_away]) = Ok None.
Proof.
  split.
  - apply (proj1 (obstacle_tiers [Examples.far_away; Scenarios.touching] Scenarios.touching
                    (PNum 1) ltac:(vm_compute; reflexivity) ltac:(vm_compute; reflexivity)));
      vm_compute; reflexivity.
  - apply (proj2 (obstacle_tiers [Examples.far_away] Examples.far_away
                    (PNum 50) ltac:(vm_compute; reflexivity) ltac:(vm_compute; reflexivity)));
      vm_compute; reflexivity.
Defined.

(** With no [distance] entry anywhere, the first obstacle stays the minimum. *)
Lemma min_loop_no_distance (items : list pyval) (best : pyval) :
  Forall (fun o => exists d, o = PDict d /\ d !! "distance" = None) items ->
  Py.min_loop DecisionMaker.distance_key best (PNum infinity) items = Ok best.
Proof.
  induction 1 as [|o rest (d & -> & Hd) _ IH]; simpl; [reflexivity|].
  unfold DecisionMaker.distance_key at 1. simpl. rewrite Hd. simpl. exact IH.
Qed.

(** X6.  Obstacles reported by their coordinates alone are ignored: when no
    obstacle of the list has a [distance] entry, the handler decides
    nothing, however close the coordinates are. *)
Theorem obstacles_without_distance_ignored (obstacles : list pyval) :
  Forall (fun o => exists d, o = PDict d /\ d !! "distance" = None) obstacles ->
  DecisionMaker._handle_obstacles (PList obstacles) = Ok None.
Proof.
  intros H. unfold DecisionMaker._handle_obstacles. simpl.
  destruct H as [|o rest (d & -> & Hd) Hrest]; [reflexivity|]. simpl.
  unfold DecisionMaker.closest_obstacle. simpl.
  unfold DecisionMaker.distance_key at 1. simpl. rewrite Hd. simpl.
  rewrite (min_loop_no_distance _ _ Hrest). simpl. rewrite Hd. reflexivity.
Qed.

Lemma obstacles_without_distance_ignored_witness :
  DecisionMaker._handle_obstacles (PList [Examples.beside]) = Ok None.
Proof.
  apply (obstacles_without_distance_ignored [Examples.beside]).
  repeat constructor. eexists. split; [reflexivity|vm_compute; reflexivity].
Defined.

(** ** The next waypoint *)




(** ** What the navigator answers *)




(** ** The emergency checks of [decide] *)

(** [decide] up to its own emergency check, when the telemetry update
    succeeds and the safety tool is quiet. *)
Lemma decide_past_slom (w : Core.Collaborators) (a : Core.Agent) (perception_data : pyval) :
  telemetry_ready a ->
  (exists d, perception_data = PDict d) ->
  slom_quiet a perception_data ->
  (Core.decide w a perception_data).2
  = try_except
      (emergency ← Core._check_emergency perception_data;
       match emergency with
       | Some emergency => Core._handle_emergency emergency
       | None => Core.decide_normally w a perception_data
       end)
      (fun _ => Core._fallback_decision).
Proof.
  intros ([p Hp] & [v Hv] & [b Hb]) [d ->] Hq.
  unfold Core.decide, Core.decide_body, Core.updated_telemetry. simpl.
  rewrite Hp, Hv, Hb. simpl. unfold slom_quiet in Hq.
  destruct (Core.slom a) as [tool|]; simpl; [|reflexivity].
  destruct (Slom.check_emergency tool (PDict d)) as [tool' found]. simpl in *.
  subst found. reflexivity.
Qed.

(** X9.  The agent's own emergency thresholds: with the safety tool absent
    or quiet, a battery reading below 20 makes [decide] answer RTL with
    priority high for a low battery, and a battery reading not below 20
    with a signal strength below 30 makes it answer RTL with priority high
    for a lost signal, before the decision maker is asked. *)
Theorem own_emergency_thresholds (w : Core.Collaborators) (a : Core.Agent)
    (perception : gmap string pyval) (telemetry battery signal : pyval) :
  telemetry_ready a ->
  slom_quiet a (PDict perception) ->
  Py.get (PDict perception) "telemetry" (PDict ∅) = Ok telemetry ->
  Py.get telemetry "battery" (PNum 100) = Ok battery ->
  Py.get telemetry "signal_strength" (PNum 100) = Ok signal ->
  (Py.lt battery (PNum 20) = Ok true ->
   (Core.decide w a (PDict perception)).2
   = Ok (Decision (PStr "RTL") None ReasonLowBattery "high")) /\
  (Py.lt battery (PNum 20) = Ok false -> Py.lt signal (PNum 30) = Ok true ->
   (Core.decide w a (PDict perception)).2
   = Ok (Decision (PStr "RTL") None ReasonSignalLost "high")).
Proof.
  intros Hr Hq Ht Hb Hs.
  rewrite (decide_past_slom w a (PDict perception) Hr (ex_intro _ perception eq_refl) Hq).
  unfold Core._check_emergency. rewrite Ht. simpl. rewrite Hb. simpl. split.
  - intros ->. reflexivity.
  - intros -> Hlost. simpl. rewrite Hs. simpl. rewrite Hlost. reflexivity.
Qed.

Lemma own_emergency_thresholds_witness :
  (Core.decide Examples.simulated Examples.ready Examples.drained).2
  = Ok (Decision (PStr "RTL") None ReasonLowBattery "high") /\
  (Core.decide Examples.simulated Examples.ready (PDict Scenarios.faint)).2
  = Ok (Decision (PStr "RTL") None ReasonSignalLost "high").
Proof.
  split.
  - apply (proj1 (own_emergency_thresholds Examples.simulated Examples.ready
                    {[ "telemetry" := PDict {[ "battery" := PNum 5;
                                               "position" := Slom.origin ]} ]}
                    (PDict {[ "battery" := PNum 5; "position" := Slom.origin ]})
                    (PNum 5) (PNum 100)
                    ltac:(repeat split; vm_compute; eauto) I
                    ltac:(reflexivity) ltac:(reflexivity) ltac:(reflexivity)));
      vm_compute; reflexivity.
  - apply (proj2 (own_emergency_thresholds Examples.simulated Examples.ready
                    Scenarios.faint
                    (PDict {[ "battery" := PNum 80; "signal_strength" := PNum 10 ]})
                    (PNum 80) (PNum 10)
                    ltac:(repeat split; vm_compute; eauto) I
                    ltac:(reflexivity) ltac:(reflexivity) ltac:(reflexivity)));
      vm_compute; reflexivity.
Defined.

(** ** Which decisions reach the caller of [decide] *)










(** ** The advisory hook *)

(** X11.  When the sub-agent is enabled and its advice suggests a command,
    [decide] returns the suggested command with the advice's reason, and
    keeps the parameters and the priority of the decision it replaces,
    whatever that priority is: a critical decision is not protected. *)
Theorem advice_replaces_command (w : Core.Collaborators) (a : Core.Agent)
    (perception advice : gmap string pyval) (d0 : decision) (change cmd : pyval) :
  telemetry_ready a ->
  slom_quiet a (PDict perception) ->
  Core._check_emergency (PDict perception) = Ok None ->
  maker_decision a (PDict perception) = Ok d0 ->
  Core.sub_agent_enabled a = Ok true ->
  Core.review_decision w d0 (PDict perception) = PDict advice ->
  advice !! "suggest_change" = Some change -> Py.truthy change = true ->
  advice !! "suggested_command" = Some cmd -> Py.truthy cmd = true ->
  (Core.decide w a (PDict perception)).2
  = Ok (Decision cmd (params d0)
          (ReasonAdvice (default (PStr "Рекомендация субагента") (advice !! "reason")))
          (priority d0)).
Proof.
  intros Hr Hq Hc Hm He Hrev Hch Hcht Hcmd Hcmdt.
  rewrite (decide_past_slom w a (PDict perception) Hr (ex_intro _ perception eq_refl) Hq).
  rewrite Hc. simpl. unfold Core.decide_normally.
  change (match Core.current_mission a with
          | Some mission => _ | None => _ end) with (maker_decision a (PDict perception)).
  rewrite Hm. simpl. rewrite He. simpl. rewrite Hrev. simpl. rewrite Hch. simpl.
  rewrite Hcht. unfold Core._merge_decisions. simpl. rewrite Hcmd. simpl. rewrite Hcmdt.
  reflexivity.
Qed.

Lemma advice_replaces_command_witness :
  (Core.decide Scenarios.advised Scenarios.supervised Examples.healthy).2
  = Ok (Decision (PStr "LAND") None (ReasonAdvice (PStr "wind")) "low").
Proof.
  apply (advice_replaces_command Scenarios.advised Scenarios.supervised
           {[ "telemetry" := PDict {[ "battery" := PNum 80; "position" := Slom.origin ]} ]}
           Scenarios.advice
           (Decision (PStr "HOVER") None ReasonFreeFlight "low") (PBool true) (PStr "LAND"));
    first [reflexivity|exact I|vm_compute; reflexivity|repeat split; vm_compute; eauto].
Defined.

Lemma decide_normally_disabled (w : Core.Collaborators) (a : Core.Agent) (p : pyval) :
  Core.sub_agent_enabled a = Ok false ->
  Core.decide_normally w a p = maker_decision a p.
Proof.
  intros He. unfold Core.decide_normally.
  change (match Core.current_mission a with
          | Some mission => _ | None => _ end) with (maker_decision a p).
  destruct (maker_decision a p); simpl; [|reflexivity]. rewrite He. reflexivity.
Qed.

(** X12.  With the sub-agent disabled in the configuration its review is
    never consulted: [decide] returns the same decision and leaves the same
    agent whatever the collaborators are. *)
Theorem decide_ignores_disabled_sub_agent (w w' : Core.Collaborators) (a : Core.Agent)
    (perception_data : pyval) :
  Core.sub_agent_enabled a = Ok false ->
  Core.decide w a perception_data = Core.decide w' a perception_data.
Proof.
  intros He. unfold Core.decide, Core.decide_body.
  destruct (Core.updated_telemetry a perception_data) as [t|]; [|reflexivity]. simpl.
  destruct (Core.slom a) as [tool|]; simpl.
  - destruct (Slom.check_emergency tool perception_data) as [tool' [[e|]|]]; simpl;
      try reflexivity.
    rewrite !(decide_normally_disabled _ (Core.set_slom (Core.set_telemetry a t) (Some tool')))
      by exact He.
    reflexivity.
  - rewrite !(decide_normally_disabled _ (Core.set_telemetry a t)) by exact He.
    reflexivity.
Qed.

Lemma decide_ignores_disabled_sub_agent_witness :
  Core.decide Scenarios.advised Examples.on_mission Examples.healthy
  = Core.decide Examples.simulated Examples.on_mission Examples.healthy.
Proof.
  apply (decide_ignores_disabled_sub_agent Scenarios.advised Examples.simulated
           Examples.on_mission Examples.healthy).
  vm_compute. reflexivity.
Defined.

(** ** Acting without a vehicle *)

(** X13.  With no client connected [act] dispatches nothing and answers with
    a failure, which the sub-agent records as an alert; the state of the
    agent is updated all the same, as if the command had been carried out. *)
Theorem act_without_client (w : Core.Collaborators) (a : Core.Agent) (d : decision) :
  Core.client w = None ->
  (Core.act w a d).2 = Ok (Core.failure (PStr "Нет подключения к дрону")) /\
  Core.dispatched (Core.act w a d).1 = Core.dispatched a /\
  Core.alerts (Core.act w a d).1
  = (Core.alerts a ++ [(command d, PStr "Нет подключения к дрону")])%list /\
  Core.state (Core.act w a d).1 = Core.next_state (Core.state a) (command d).
Proof.
  intros Hc. unfold Core.act, Core.dispatch. rewrite Hc. simpl. split_and!; reflexivity.
Qed.

Lemma act_without_client_witness :
  (Core.act Scenarios.offline Examples.ready Examples.takeoff).2
  = Ok (Core.failure (PStr "Нет подключения к дрону")) /\
  Core.dispatched (Core.act Scenarios.offline Examples.ready Examples.takeoff).1
  = Core.dispatched Examples.ready /\
  Core.alerts (Core.act Scenarios.offline Examples.ready Examples.takeoff).1
  = (Core.alerts Examples.ready
     ++ [(command Examples.takeoff, PStr "Нет подключения к дрону")])%list /\
  Core.state (Core.act Scenarios.offline Examples.ready Examples.takeoff).1
  = Core.next_state (Core.state Examples.ready) (command Examples.takeoff).
Proof.
  apply (act_without_client Scenarios.offline Examples.ready Examples.takeoff).
  reflexivity.
Defined.

(** ** The entries of the agent's telemetry *)

Lemma telemetry_ready_superset (a a' : Core.Agent) :
  (forall k, is_Some (Core.telemetry a !! k) -> is_Some (Core.telemetry a' !! k)) ->
  telemetry_ready a -> telemetry_ready a'.
Proof. intros H (Hp & Hv & Hb). split_and!; apply H; assumption. Qed.

Lemma decide_telemetry (w : Core.Collaborators) (a : Core.Agent) (p : pyval) (k : string) :
  is_Some (Core.telemetry a !! k) -> is_Some (Core.telemetry (Core.decide w a p).1 !! k).
Proof.
  intros Hk. unfold Core.decide, Core.decide_body, Core.updated_telemetry. simpl.
  destruct (Core.telemetry a !! "position") as [op|]; simpl; [|exact Hk].
  destruct (Py.get p "position" op) as [np|]; simpl; [|exact Hk].
  destruct (Core.telemetry a !! "velocity") as [ov|]; simpl; [|exact Hk].
  destruct (Py.get p "velocity" ov) as [nv|]; simpl; [|exact Hk].
  destruct (Core.telemetry a !! "battery") as [ob|]; simpl; [|exact Hk].
  destruct (Py.get p "battery" ob) as [nb|]; simpl; [|exact Hk].
  assert (is_Some ((<["battery":=nb]> (<["velocity":=nv]> (<["position":=np]>
                      (Core.telemetry a)))) !! k)) as Hk'.
  { rewrite !lookup_insert_is_Some'. auto. }
  destruct (Core.slom a) as [tool|]; simpl.
  - destruct (Slom.check_emergency tool p) as [tool' [[e|]|]]; exact Hk'.
  - exact Hk'.
Qed.

Lemma perceive_telemetry (w : Core.Collaborators) (a : Core.Agent) (k : string) :
  is_Some (Core.telemetry a !! k) -> is_Some (Core.telemetry (Core.perceive w a).1 !! k).
Proof.
  intros Hk. unfold Core.perceive. destruct (Core.client w) as [vehicle|]; [|exact Hk]. simpl.
  destruct (Core.get_telemetry vehicle _) as [t|]; simpl; [|exact Hk].
  destruct t as [| | |s|l|t]; simpl; try exact Hk.
  - destruct s; exact Hk.
  - destruct l; exact Hk.
  - apply lookup_union_is_Some. auto.
Qed.

Lemma act_telemetry (w : Core.Collaborators) (a : Core.Agent) (d : decision) :
  Core.telemetry (Core.act w a d).1 = Core.telemetry a.
Proof.
  unfold Core.act, Core.dispatch, Core.notify_action.
  destruct (Core.client w) as [vehicle|]; simpl.
  - destruct (Core.send_command vehicle _ _) as [answer|]; simpl; [|reflexivity].
    destruct (Py.get answer "success" _) as [success|]; simpl; [|reflexivity].
    destruct (Py.truthy success); simpl; [reflexivity|].
    destruct (Py.get answer "error" _); reflexivity.
  - reflexivity.
Qed.

Lemma record_waypoint_telemetry w a m data waypoint k :
  is_Some (Core.telemetry a !! k) ->
  is_Some (Core.telemetry (Core.record_waypoint w a m data waypoint).1 !! k).
Proof.
  intros Hk. unfold Core.record_waypoint, Core._collect_waypoint_data.
  destruct (data_collection m); [|exact Hk].
  pose proof (perceive_telemetry w a k Hk) as Hp.
  destruct (Core.perceive w a) as [a' perception]. simpl in *.
  destruct (_ ← Py.get perception "telemetry" _; _); exact Hp.
Qed.

Lemma goto_waypoint_telemetry w a waypoint :
  Core.telemetry (Core._goto_waypoint w a waypoint).1 = Core.telemetry a.
Proof.
  unfold Core._goto_waypoint, Core.dispatch.
  destruct (_ ← Py.get waypoint "x" _; _) as [ps|]; [|reflexivity].
  destruct (Core.client w); reflexivity.
Qed.

Lemma waypoint_loop_telemetry w m k (remaining : list pyval) :
  forall a data i,
    is_Some (Core.telemetry a !! k) ->
    is_Some (Core.telemetry (Core.waypoint_loop w a m data i remaining).1 !! k).
Proof.
  induction remaining as [|waypoint rest IH]; intros a data i Hk; simpl; [exact Hk|].
  destruct (bool_decide _); [exact Hk|].
  pose proof (goto_waypoint_telemetry w a waypoint) as Hg.
  destruct (Core._goto_waypoint w a waypoint) as [a1 [answer|]]; simpl in *;
    [|rewrite Hg; exact Hk].
  destruct (Py.get answer "success" PNone) as [success|]; [|simpl; rewrite Hg; exact Hk].
  assert (is_Some (Core.telemetry a1 !! k)) as Hk1 by (rewrite Hg; exact Hk).
  destruct (Py.truthy success).
  - pose proof (record_waypoint_telemetry w a1 m data waypoint k Hk1) as Hr.
    destruct (Core.record_waypoint w a1 m data waypoint) as [a2 [data2|]];
      simpl in *; [|exact Hr].
    apply IH. destruct (Core.emergency_stop_requested w i); exact Hr.
  - apply IH. destruct (Core.emergency_stop_requested w i); exact Hk1.
Qed.

Lemma run_mission_telemetry w a m k :
  is_Some (Core.telemetry a !! k) ->
  is_Some (Core.telemetry (Core.run_mission w a m).1 !! k).
Proof.
  intros Hk. unfold Core.run_mission, Core.mission_body.
  destruct (Py.iter (waypoints m)) as [items|]; simpl.
  - pose proof (waypoint_loop_telemetry w m k items (Core.start_mission a m)
                  (Core.MissionData [] [] []) 0 Hk) as Hl.
    destruct (Core.waypoint_loop _ _ _ _ _ _) as [a1 [data|]]; simpl in *.
    + unfold Core._complete_mission.
      destruct (_ ← Py.len _; _) as [r|]; simpl; [exact Hl|].
      unfold Core._handle_mission_failure.
      pose proof (act_telemetry w a1 (Decision (PStr "LAND") None ReasonMissionError "high"))
        as Ha.
      destruct (Core.act w a1 _) as [a2 [answer|]]; simpl in *; rewrite Ha; exact Hl.
    + unfold Core._handle_mission_failure.
      pose proof (act_telemetry w a1 (Decision (PStr "LAND") None ReasonMissionError "high"))
        as Ha.
      destruct (Core.act w a1 _) as [a2 [answer|]]; simpl in *; rewrite Ha; exact Hl.
  - unfold Core._handle_mission_failure.
    pose proof (act_telemetry w (Core.start_mission a m)
                  (Decision (PStr "LAND") None ReasonMissionError "high")) as Ha.
    destruct (Core.act w _ _) as [a2 [answer|]]; simpl in *; rewrite Ha; exact Hk.
Qed.

(** X14.  The entries [decide] reads from the agent's own telemetry
    (position, velocity and battery) are never lost: present from
    construction, they are still present after [decide], [perceive], [act]
    and [run_mission], whatever the inputs and the collaborators do. *)
Theorem telemetry_entries_kept (w : Core.Collaborators) (a : Core.Agent)
    (perception_data : pyval) (d : decision) (m : MissionParams) :
  telemetry_ready a ->
  telemetry_ready (Core.decide w a perception_data).1 /\
  telemetry_ready (Core.perceive w a).1 /\
  telemetry_ready (Core.act w a d).1 /\
  telemetry_ready (Core.run_mission w a m).1.
Proof.
  intros Hr. split_and!; revert Hr; apply telemetry_ready_superset; intros k.
  - apply decide_telemetry.
  - apply perceive_telemetry.
  - rewrite act_telemetry. auto.
  - apply run_mission_telemetry.
Qed.

Lemma telemetry_entries_kept_witness :
  telemetry_ready (Core.decide Examples.simulated Examples.ready Examples.healthy).1 /\
  telemetry_ready (Core.perceive Examples.simulated Examples.ready).1 /\
  telemetry_ready (Core.act Examples.simulated Examples.ready Examples.takeoff).1 /\
  telemetry_ready (Core.run_mission Examples.simulated Examples.ready Examples.survey).1.
Proof.
  apply (telemetry_entries_kept Examples.simulated Examples.ready Examples.healthy
           Examples.takeoff Examples.survey).
  repeat split; vm_compute; eauto.
Defined.

(** ** How a mission ends *)

(** X15.  [run_mission] always hands back an agent in state READY with no
    current mission, and returns nothing: after a completed mission, after
    a failed one, and also after a mission that an emergency stop
    interrupted, whose EMERGENCY state is overwritten. *)
Theorem run_mission_ends_ready (w : Core.Collaborators) (a : Core.Agent) (m : MissionParams) :
  (Core.run_mission w a m).2 = Ok None /\
  Core.state (Core.run_mission w a m).1 = Core.READY /\
  Core.current_mission (Core.run_mission w a m).1 = None.
Proof.
  unfold Core.run_mission.
  assert (forall a1 e,
            (let '(a2, failed) := Core._handle_mission_failure w a1 e in
             match failed with
             | Ok _ => (a2, Ok None)
             | Raise e' => (a2, @Raise (option Core.report) e')
             end).2 = Ok None /\
            Core.state (let '(a2, failed) := Core._handle_mission_failure w a1 e in
                        match failed with
                        | Ok _ => (a2, Ok None)
                        | Raise e' => (a2, @Raise (option Core.report) e')
                        end).1 = Core.READY /\
            Core.current_mission
              (let '(a2, failed) := Core._handle_mission_failure w a1 e in
               match failed with
               | Ok _ => (a2, Ok None)
               | Raise e' => (a2, @Raise (option Core.report) e')
               end).1 = None) as Hfail.
  { intros a1 e. unfold Core._handle_mission_failure.
    destruct (act_effects w a1 (Decision (PStr "LAND") None ReasonMissionError "high"))
      as (answer & Hact & _).
    destruct (Core.act w a1 _) as [a2 outcome]. simpl in *. subst outcome. simpl.
    split_and!; reflexivity. }
  destruct (Core.mission_body w (Core.start_mission a m) m) as [a1 [r|e]] eqn:Eb.
  - simpl. split; [reflexivity|].
    unfold Core.mission_body in Eb.
    destruct (Py.iter (waypoints m)) as [items|]; [|discriminate].
    destruct (Core.waypoint_loop _ _ _ _ _ _) as [a0 [data|]]; [|discriminate].
    unfold Core._complete_mission in Eb.
    destruct (_ ← Py.len _; _) as [r'|]; [|discriminate].
    injection Eb as <- _. split; reflexivity.
  - exact (Hfail a1 e).
Qed.

(** ** The mission loop *)

Lemma perceive_state w a : Core.state (Core.perceive w a).1 = Core.state a.
Proof.
  unfold Core.perceive. destruct (Core.client w) as [vehicle|]; [|reflexivity].
  simpl. destruct (_ ← Core.get_telemetry vehicle _; _) as [[t merged]|]; reflexivity.
Qed.

Lemma perceive_dispatched w a : Core.dispatched (Core.perceive w a).1 = Core.dispatched a.
Proof.
  unfold Core.perceive. destruct (Core.client w) as [vehicle|]; [|reflexivity].
  simpl. destruct (_ ← Core.get_telemetry vehicle _; _) as [[t merged]|]; reflexivity.
Qed.

(** What one call of [_goto_waypoint] does to the agent. *)
Lemma goto_waypoint_effects w a waypoint :
  Core.state (Core._goto_waypoint w a waypoint).1 = Core.state a /\
  exists gotos,
    Core.dispatched (Core._goto_waypoint w a waypoint).1 = (Core.dispatched a ++ gotos)%list /\
    commands gotos = repeat (PStr "GOTO") (length gotos) /\
    length gotos <= 1 /\
    (forall answer, (Core._goto_waypoint w a waypoint).2 = Ok answer ->
                    is_Some (Core.client w) -> length gotos = 1) /\
    (Core.client w = None ->
     gotos = [] /\
     forall answer, (Core._goto_waypoint w a waypoint).2 = Ok answer ->
                    Py.get answer "success" PNone = Ok (PBool false)).
Proof.
  unfold Core._goto_waypoint, Core.dispatch.
  destruct (_ ← Py.get waypoint "x" _; _) as [ps|]; simpl.
  - destruct (Core.client w) as [vehicle|]; simpl.
    + split; [reflexivity|]. exists [(PStr "GOTO", ps)].
      split_and!; [reflexivity|reflexivity|simpl; lia|reflexivity|discriminate].
    + split; [reflexivity|]. exists []. rewrite app_nil_r.
      split_and!; [reflexivity|reflexivity|simpl; lia|intros ? _ [? [=]]|].
      intros _. split; [reflexivity|]. intros answer [= <-]. reflexivity.
  - split; [reflexivity|]. exists []. rewrite app_nil_r.
    split_and!; [reflexivity|reflexivity|simpl; lia|intros ? [=]|].
    intros _. split; [reflexivity|]. intros answer [=].
Qed.

(** What recording a reached waypoint does. *)
Lemma record_waypoint_effects w a m data waypoint :
  Core.state (Core.record_waypoint w a m data waypoint).1 = Core.state a /\
  Core.dispatched (Core.record_waypoint w a m data waypoint).1 = Core.dispatched a /\
  forall data',
    (Core.record_waypoint w a m data waypoint).2 = Ok data' ->
    Core.completed data' = (Core.completed data ++ [waypoint])%list /\
    Core.reached_events data'
    = (Core.reached_events data ++ [reached_event waypoint])%list /\
    length (Core.collected data')
    = length (Core.collected data) + (if data_collection m then 1 else 0).
Proof.
  unfold Core.record_waypoint, Core._collect_waypoint_data.
  destruct (data_collection m).
  - pose proof (perceive_state w a) as Hs. pose proof (perceive_dispatched w a) as Hd.
    destruct (Core.perceive w a) as [a' perception]. simpl in *.
    destruct (_ ← Py.get perception "telemetry" _; _) as [sample|]; simpl.
    + split_and!; [exact Hs|exact Hd|]. intros data' [= <-]. simpl.
      split_and!; [reflexivity|reflexivity|]. rewrite length_app. reflexivity.
    + split_and!; [exact Hs|exact Hd|]. intros data' [=].
  - simpl. split_and!; [reflexivity|reflexivity|]. intros data' [= <-]. simpl.
    split_and!; [reflexivity|reflexivity|lia].
Qed.

(** The loop as a whole: the commands it dispatches, and the waypoints it
    records. *)
Lemma waypoint_loop_effects w m (remaining : list pyval) :
  forall a data i,
    exists gotos,
      Core.dispatched (Core.waypoint_loop w a m data i remaining).1
      = (Core.dispatched a ++ gotos)%list /\
      commands gotos = repeat (PStr "GOTO") (length gotos) /\
      length gotos <= length remaining /\
      (Core.state a = Core.EMERGENCY -> gotos = []) /\
      (forall k, i <= k -> Core.emergency_stop_requested w k = true ->
                 length gotos <= S k - i) /\
      (Core.client w = None -> gotos = []) /\
      forall data',
        (Core.waypoint_loop w a m data i remaining).2 = Ok data' ->
        exists reached,
          Core.completed data' = (Core.completed data ++ reached)%list /\
          Core.reached_events data'
          = (Core.reached_events data ++ (reached_event <$> reached))%list /\
          sublist reached remaining /\
          length reached <= length gotos /\
          length (Core.collected data')
          = length (Core.collected data)
            + (if data_collection m then length reached else 0).
Proof.
  induction remaining as [|waypoint rest IH]; intros a data i; simpl.
  { exists []. rewrite app_nil_r.
    split_and!; [reflexivity|reflexivity|simpl; lia|intros _; reflexivity|intros; simpl; lia
                |intros _; reflexivity|].
    intros data' [= <-]. exists []. rewrite !app_nil_r.
    split_and!; [reflexivity|reflexivity|reflexivity|simpl; lia|].
    simpl. destruct (data_collection m); lia. }
  case_bool_decide as Hstate.
  { exists []. rewrite app_nil_r.
    split_and!; [reflexivity|reflexivity|simpl; lia|intros _; reflexivity|intros; simpl; lia
                |intros _; reflexivity|].
    intros data' [= <-]. exists []. rewrite !app_nil_r.
    split_and!; [reflexivity|reflexivity|apply sublist_nil_l|simpl; lia|].
    simpl. destruct (data_collection m); lia. }
  destruct (goto_waypoint_effects w a waypoint) as (Hs & g & Hd & Hg & Hlen & Hone & Hnone).
  destruct (Core._goto_waypoint w a waypoint) as [a1 [answer|]]; simpl in *.
  2:{ exists g.
      split_and!; [assumption|assumption|simpl; lia|intros; contradiction|intros; lia
                  |intros Hc; apply Hnone, Hc|intros ? [=]]. }
  destruct (Py.get answer "success" PNone) as [success|] eqn:Esucc; simpl.
  2:{ exists g.
      split_and!; [assumption|assumption|simpl; lia|intros; contradiction|intros; lia
                  |intros Hc; apply Hnone, Hc|intros ? [=]]. }
  destruct (Py.truthy success) eqn:Etruth.
  - destruct (record_waypoint_effects w a1 m data waypoint) as (Hrs & Hrd & Hrec).
    destruct (Core.record_waypoint w a1 m data waypoint) as [a2 [data2|]]; simpl in *.
    2:{ exists g. rewrite Hrd.
        split_and!; [assumption|assumption|simpl; lia|intros; contradiction|intros; lia
                    |intros Hc; apply Hnone, Hc|intros ? [=]]. }
    destruct (Hrec data2 eq_refl) as (Hc2 & He2 & Hl2).
    assert (length g = 1) as Hg1.
    { destruct (Core.client w) eqn:Ec.
      - apply (Hone answer eq_refl). eauto.
      - destruct (Hnone eq_refl) as [_ Hf]. specialize (Hf answer eq_refl).
        rewrite Esucc in Hf. injection Hf as ->. discriminate Etruth. }
    set (a3 := if Core.emergency_stop_requested w i then Core.set_state a2 Core.EMERGENCY
               else a2).
    destruct (IH a3 data2 (S i)) as (gs & Hds & Hgs & Hlens & Hem & Hk & Hno & Hdata).
    assert (Core.dispatched a3 = Core.dispatched a2) as Hd3
      by (unfold a3; destruct (Core.emergency_stop_requested w i); reflexivity).
    exists (g ++ gs)%list. split_and!.
    + rewrite Hds, Hd3, Hrd, Hd, app_assoc. reflexivity.
    + unfold commands in *. rewrite fmap_app, length_app, repeat_app, Hg, Hgs. reflexivity.
    + rewrite length_app. lia.
    + intros He. contradiction.
    + intros k Hik Hreq. rewrite length_app.
      destruct (decide (k = i)) as [->|Hne].
      * rewrite Hem; [simpl; lia|]. unfold a3. rewrite Hreq. reflexivity.
      * specialize (Hk k ltac:(lia) Hreq). lia.
    + intros Hc. destruct (Hnone Hc) as [-> _]. rewrite (Hno Hc). reflexivity.
    + intros data' Hres. destruct (Hdata data' Hres) as (reached & Hc & He & Hsub & Hlr & Hcol).
      exists (waypoint :: reached). split_and!.
      * rewrite Hc, Hc2, <- app_assoc. reflexivity.
      * rewrite He, He2, <- app_assoc. reflexivity.
      * apply sublist_skip, Hsub.
      * rewrite length_app. simpl. lia.
      * rewrite Hcol, Hl2. simpl. destruct (data_collection m); lia.
  - set (a3 := if Core.emergency_stop_requested w i then Core.set_state a1 Core.EMERGENCY
               else a1).
    destruct (IH a3 data (S i)) as (gs & Hds & Hgs & Hlens & Hem & Hk & Hno & Hdata).
    assert (Core.dispatched a3 = Core.dispatched a1) as Hd3
      by (unfold a3; destruct (Core.emergency_stop_requested w i); reflexivity).
    exists (g ++ gs)%list. split_and!.
    + rewrite Hds, Hd3, Hd, app_assoc. reflexivity.
    + unfold commands in *. rewrite fmap_app, length_app, repeat_app, Hg, Hgs. reflexivity.
    + rewrite length_app. lia.
    + intros He. contradiction.
    + intros k Hik Hreq. rewrite length_app.
      destruct (decide (k = i)) as [->|Hne].
      * rewrite Hem; [simpl; lia|]. unfold a3. rewrite Hreq. reflexivity.
      * specialize (Hk k ltac:(lia) Hreq). lia.
    + intros Hc. destruct (Hnone Hc) as [-> _]. rewrite (Hno Hc). reflexivity.
    + intros data' Hres. destruct (Hdata data' Hres) as (reached & Hc & He & Hsub & Hlr & Hcol).
      exists reached. split_and!; auto.
      * apply sublist_cons, Hsub.
      * rewrite length_app. lia.
Qed.

Lemma chars_length (s : string) : length (Py.chars s) = String.length s.
Proof. induction s as [|c s IH]; simpl; [reflexivity|]. now rewrite IH. Qed.

Lemma iter_len (v : pyval) (items : list pyval) :
  Py.iter v = Ok items -> Py.len v = Ok (length items).
Proof.
  destruct v as [| | |s|l|d]; simpl; intros [= <-].
  - now rewrite chars_length.
  - reflexivity.
  - now rewrite !length_fmap, length_map_to_list.
Qed.

(** X16.  Every report [run_mission] files is a completion report that adds
    up: it is appended once to the mission history, its total is the length
    of the mission's waypoints, it counts no more waypoints than that, it
    holds one event for each waypoint counted, and one collected sample for
    each when the mission collects data and none otherwise; and the storage
    accepted it.  A mission that files no report leaves the history as it
    was. *)
Theorem mission_report_accounting (w : Core.Collaborators) (a : Core.Agent)
    (m : MissionParams) :
  Core.mission_history (Core.run_mission w a m).1 = Core.mission_history a \/
  exists r,
    Core.mission_history (Core.run_mission w a m).1 = (Core.mission_history a ++ [r])%list /\
    Core.status r = "completed" /\
    Core.report_mission_id r = mission_id m /\
    Core.report_mission_name r = mission_name m /\
    Py.len (waypoints m) = Ok (Core.total_waypoints r) /\
    Core.waypoints_completed r <= Core.total_waypoints r /\
    length (Core.events r) = Core.waypoints_completed r /\
    length (Core.data_collected r)
    = (if data_collection m then Core.waypoints_completed r else 0) /\
    Core.store_report w r = Ok ().
Proof.
  unfold Core.run_mission.
  assert (forall a1 e,
            Core.mission_history a1 = Core.mission_history a ->
            Core.mission_history
              (let '(a2, failed) := Core._handle_mission_failure w a1 e in
               match failed with
               | Ok _ => (a2, Ok None)
               | Raise e' => (a2, @Raise (option Core.report) e')
               end).1 = Core.mission_history a) as Hfail.
  { intros a1 e Hh. unfold Core._handle_mission_failure.
    destruct (act_effects w a1 (Decision (PStr "LAND") None ReasonMissionError "high"))
      as (answer & Hact & Hhist & _).
    destruct (Core.act w a1 _) as [a2 outcome]. simpl in *. subst outcome. simpl.
    congruence. }
  unfold Core.mission_body.
  destruct (Py.iter (waypoints m)) as [items|] eqn:Eiter; [|left; apply Hfail; reflexivity].
  pose proof (waypoint_loop_history w m items (Core.start_mission a m)
                (Core.MissionData [] [] []) 0) as Hh.
  destruct (waypoint_loop_effects w m items (Core.start_mission a m)
              (Core.MissionData [] [] []) 0) as (gotos & _ & _ & _ & _ & _ & _ & Hdata).
  destruct (Core.waypoint_loop _ _ _ _ _ _) as [a1 [data|]]; simpl in *;
    [|left; apply Hfail; exact Hh].
  destruct (Hdata data eq_refl) as (reached & Hc & He & Hsub & _ & Hcol).
  unfold Core._complete_mission. rewrite (iter_len _ _ Eiter). simpl.
  destruct (Core.store_report w _) as [[]|] eqn:Estore; simpl;
    [|left; apply Hfail; exact Hh].
  right. eexists. split; [rewrite Hh; reflexivity|]. simpl.
  split_and!; try reflexivity.
  - rewrite Hc. apply sublist_length, Hsub.
  - rewrite He, Hc, length_fmap. reflexivity.
  - rewrite Hcol, Hc. reflexivity.
  - exact Estore.
Qed.

Lemma act_without_client_dispatched w a d :
  Core.client w = None -> Core.dispatched (Core.act w a d).1 = Core.dispatched a.
Proof. intros Hc. unfold Core.act, Core.dispatch. rewrite Hc. reflexivity. Qed.

(** X17.  The commands a mission hands to the client: a run of GOTO, one at
    most for each waypoint, none of them after the iteration in which an
    emergency stop was requested, followed by one LAND at most, which is
    only sent when no report was filed. *)
Theorem mission_commands (w : Core.Collaborators) (a : Core.Agent) (m : MissionParams) :
  exists gotos landing,
    Core.dispatched (Core.run_mission w a m).1 = (Core.dispatched a ++ gotos ++ landing)%list /\
    commands gotos = repeat (PStr "GOTO") (length gotos) /\
    (landing = [] \/ landing = [(PStr "LAND", ∅)]) /\
    (landing <> [] ->
     Core.mission_history (Core.run_mission w a m).1 = Core.mission_history a) /\
    (forall n, Py.len (waypoints m) = Ok n -> length gotos <= n) /\
    (forall k, Core.emergency_stop_requested w k = true -> length gotos <= S k).
Proof.
  unfold Core.run_mission.
  assert (forall a1 e,
            Core.mission_history a1 = Core.mission_history a ->
            exists landing,
              Core.dispatched
                (let '(a2, failed) := Core._handle_mission_failure w a1 e in
                 match failed with
                 | Ok _ => (a2, Ok None)
                 | Raise e' => (a2, @Raise (option Core.report) e')
                 end).1 = (Core.dispatched a1 ++ landing)%list /\
              (landing = [] \/ landing = [(PStr "LAND", ∅)]) /\
              Core.mission_history
                (let '(a2, failed) := Core._handle_mission_failure w a1 e in
                 match failed with
                 | Ok _ => (a2, Ok None)
                 | Raise e' => (a2, @Raise (option Core.report) e')
                 end).1 = Core.mission_history a) as Hfail.
  { intros a1 e Hh. unfold Core._handle_mission_failure.
    destruct (act_effects w a1 (Decision (PStr "LAND") None ReasonMissionError "high"))
      as (answer & Hact & Hhist & Hdisp).
    pose proof (act_without_client_dispatched w a1
                  (Decision (PStr "LAND") None ReasonMissionError "high")) as Hnone.
    destruct (Core.act w a1 _) as [a2 outcome]. simpl in *. subst outcome. simpl.
    destruct (Core.client w) as [vehicle|].
    - exists [(PStr "LAND", ∅)]. split_and!; [apply Hdisp; eauto|auto|congruence].
    - exists []. rewrite app_nil_r. split_and!; [apply Hnone; reflexivity|auto|congruence]. }
  unfold Core.mission_body.
  destruct (Py.iter (waypoints m)) as [items|] eqn:Eiter.
  2:{ destruct (Hfail (Core.start_mission a m) e eq_refl) as (landing & Hd & Hl & Hh).
      exists [], landing. split_and!; [exact Hd|reflexivity|exact Hl|auto|simpl; lia
                                       |simpl; lia]. }
  pose proof (waypoint_loop_history w m items (Core.start_mission a m)
                (Core.MissionData [] [] []) 0) as Hh.
  destruct (waypoint_loop_effects w m items (Core.start_mission a m)
              (Core.MissionData [] [] []) 0) as (gotos & Hd & Hg & Hlen & _ & Hk & _ & _).
  rewrite (iter_len _ _ Eiter).
  assert (forall n, Ok (length items) = Ok n -> length gotos <= n) as Hn
    by (intros n [= <-]; exact Hlen).
  assert (forall k, Core.emergency_stop_requested w k = true -> length gotos <= S k) as Hk'
    by (intros k Hreq; specialize (Hk k ltac:(lia) Hreq); lia).
  destruct (Core.waypoint_loop _ _ _ _ _ _) as [a1 [data|]]; simpl in *.
  - unfold Core._complete_mission. rewrite (iter_len _ _ Eiter). simpl.
    destruct (Core.store_report w _); simpl.
    + exists gotos, []. rewrite app_nil_r.
      split_and!; [exact Hd|exact Hg|auto|intros []; reflexivity|exact Hn|exact Hk'].
    + destruct (Hfail a1 e Hh) as (landing & Hd' & Hl & Hh').
      exists gotos, landing. rewrite Hd', Hd, <- app_assoc.
      split_and!; [reflexivity|exact Hg|exact Hl|auto|exact Hn|exact Hk'].
  - destruct (Hfail a1 e Hh) as (landing & Hd' & Hl & Hh').
    exists gotos, landing. rewrite Hd', Hd, <- app_assoc.
    split_and!; [reflexivity|exact Hg|exact Hl|auto|exact Hn|exact Hk'].
Qed.

(** ** Missions that go well, and missions without a vehicle *)

Lemma goto_waypoint_dict w a (waypoint : gmap string pyval) :
  Core._goto_waypoint w a (PDict waypoint)
  = Core.dispatch w a (goto_call waypoint) (PStr "Нет подключения").
Proof. reflexivity. Qed.

Lemma record_waypoint_returns w a m data waypoint :
  exists data', (Core.record_waypoint w a m data waypoint).2 = Ok data'.
Proof.
  unfold Core.record_waypoint, Core._collect_waypoint_data, Core.perceive.
  destruct (data_collection m); [|eauto].
  destruct (Core.client w) as [vehicle|]; simpl; [|eauto].
  destruct (_ ← Core.get_telemetry vehicle _; _) as [[t merged]|]; simpl; eauto.
Qed.

Lemma waypoint_loop_all_reached w m vehicle (dicts : list (gmap string pyval)) :
  Core.client w = Some vehicle ->
  accepts vehicle ->
  (forall k, Core.emergency_stop_requested w k = false) ->
  forall a data i,
    Core.state a <> Core.EMERGENCY ->
    exists data',
      (Core.waypoint_loop w a m data i (PDict <$> dicts)).2 = Ok data' /\
      Core.dispatched (Core.waypoint_loop w a m data i (PDict <$> dicts)).1
      = (Core.dispatched a ++ (goto_call <$> dicts))%list /\
      Core.completed data' = (Core.completed data ++ (PDict <$> dicts))%list /\
      Core.reached_events data'
      = (Core.reached_events data ++ (reached_event <$> (PDict <$> dicts)))%list /\
      length (Core.collected data')
      = length (Core.collected data) + (if data_collection m then length dicts else 0).
Proof.
  intros Hc Hacc Hquiet.
  induction dicts as [|waypoint rest IH]; intros a data i Hstate; simpl.
  { exists data. rewrite !app_nil_r. split_and!; try reflexivity.
    destruct (data_collection m); lia. }
  rewrite bool_decide_eq_false_2 by exact Hstate.
  rewrite goto_waypoint_dict. unfold Core.dispatch. rewrite Hc.
  destruct (Hacc (Core.dispatched a) (snd (goto_call waypoint)))
    as (answer & success & Hsent & Hsucc & Htrue).
  change (PStr "GOTO", snd (goto_call waypoint)) with (goto_call waypoint) in Hsent.
  rewrite Hsent, Hsucc, Htrue.
  set (a1 := Core.set_dispatched a (Core.dispatched a ++ [goto_call waypoint])).
  destruct (record_waypoint_returns w a1 m data (PDict waypoint)) as [data2 Hret].
  destruct (record_waypoint_effects w a1 m data (PDict waypoint)) as (Hrs & Hrd & Hrec).
  destruct (Core.record_waypoint w a1 m data (PDict waypoint)) as [a2 recorded].
  simpl in *. subst recorded. rewrite Hquiet.
  destruct (Hrec data2 eq_refl) as (Hc2 & He2 & Hl2).
  destruct (IH a2 data2 (S i)) as (data' & Hres & Hd & Hcd & Hed & Hld).
  { rewrite Hrs. exact Hstate. }
  exists data'. split_and!.
  - exact Hres.
  - rewrite Hrd in Hd. etrans; [exact Hd|]. rewrite <- app_assoc. reflexivity.
  - rewrite Hcd, Hc2, <- app_assoc. reflexivity.
  - rewrite Hed, He2, <- app_assoc. reflexivity.
  - rewrite Hld, Hl2. destruct (data_collection m); lia.
Qed.

(** X18.  A mission over a list of waypoint dictionaries, flown with a
    client that accepts every command, a storage that keeps the report and
    no emergency stop, sends one GOTO for each waypoint, in order, with the
    waypoint's coordinates and the defaults 0, 0, 10 and speed 5 for
    missing ones, and files a report that counts every waypoint. *)
Theorem mission_completes (w : Core.Collaborators) (a : Core.Agent) (m : MissionParams)
    (vehicle : Core.Client) (dicts : list (gmap string pyval)) :
  Core.client w = Some vehicle ->
  accepts vehicle ->
  (forall k, Core.emergency_stop_requested w k = false) ->
  (forall r, Core.store_report w r = Ok ()) ->
  waypoints m = PList (PDict <$> dicts) ->
  Core.dispatched (Core.run_mission w a m).1
  = (Core.dispatched a ++ (goto_call <$> dicts))%list /\
  exists samples,
    length samples = (if data_collection m then length dicts else 0) /\
    Core.mission_history (Core.run_mission w a m).1
    = (Core.mission_history a ++
       [Core.Report (mission_id m) (mission_name m) "completed" (length dicts)
          (length dicts) (reached_event <$> (PDict <$> dicts)) samples])%list.
Proof.
  intros Hc Hacc Hquiet Hstore Hw.
  unfold Core.run_mission, Core.mission_body. rewrite Hw. simpl.
  destruct (waypoint_loop_all_reached w m vehicle dicts Hc Hacc Hquiet
              (Core.start_mission a m) (Core.MissionData [] [] []) 0)
    as (data & Hres & Hd & Hcd & Hed & Hld); [discriminate|].
  pose proof (waypoint_loop_history w m (PDict <$> dicts) (Core.start_mission a m)
                (Core.MissionData [] [] []) 0) as Hh.
  destruct (Core.waypoint_loop _ _ _ _ _ _) as [a1 outcome]. simpl in *. subst outcome.
  unfold Core._complete_mission. rewrite Hw. simpl. rewrite Hstore. simpl.
  split; [exact Hd|]. exists (Core.collected data).
  split; [exact Hld|]. rewrite Hh, Hcd, Hed, !length_fmap. reflexivity.
Qed.

Lemma mission_completes_witness :
  Core.dispatched (Core.run_mission Examples.simulated Examples.ready Examples.survey).1
  = (Core.dispatched Examples.ready ++ (goto_call <$> Scenarios.route))%list /\
  exists samples,
    length samples = (if data_collection Examples.survey then length Scenarios.route else 0) /\
    Core.mission_history (Core.run_mission Examples.simulated Examples.ready Examples.survey).1
    = (Core.mission_history Examples.ready ++
       [Core.Report (mission_id Examples.survey) (mission_name Examples.survey) "completed"
          (length Scenarios.route) (length Scenarios.route)
          (reached_event <$> (PDict <$> Scenarios.route)) samples])%list.
Proof.
  apply (mission_completes Examples.simulated Examples.ready Examples.survey
           Examples.compliant Scenarios.route); try reflexivity.
  intros history params. exists (PDict {[ "success" := PBool true ]}), (PBool true).
  split_and!; reflexivity.
Defined.

Lemma waypoint_loop_offline w m (dicts : list (gmap string pyval)) :
  Core.client w = None ->
  forall a data i,
    (Core.waypoint_loop w a m data i (PDict <$> dicts)).2 = Ok data /\
    Core.dispatched (Core.waypoint_loop w a m data i (PDict <$> dicts)).1
    = Core.dispatched a /\
    Core.alerts (Core.waypoint_loop w a m data i (PDict <$> dicts)).1 = Core.alerts a /\
    Core.perceived (Core.waypoint_loop w a m data i (PDict <$> dicts)).1 = Core.perceived a.
Proof.
  intros Hc. induction dicts as [|waypoint rest IH]; intros a data i; simpl.
  { split_and!; reflexivity. }
  destruct (bool_decide _); [split_and!; reflexivity|].
  rewrite goto_waypoint_dict. unfold Core.dispatch. rewrite Hc. simpl.
  destruct (IH (if Core.emergency_stop_requested w i then Core.set_state a Core.EMERGENCY
                else a) data (S i)) as (Hres & Hd & Ha & Hp).
  split_and!; [exact Hres|etrans; [exact Hd|]|etrans; [exact Ha|]|etrans; [exact Hp|]];
    destruct (Core.emergency_stop_requested w i); reflexivity.
Qed.

(** X19.  Without a client a mission over a list of waypoint dictionaries
    is still filed as completed: no command is dispatched, no telemetry is
    read and no alert is raised, every waypoint counts as not reached, and
    the report says completed with none of the waypoints done. *)
Theorem mission_without_client (w : Core.Collaborators) (a : Core.Agent) (m : MissionParams)
    (dicts : list (gmap string pyval)) :
  Core.client w = None ->
  (forall r, Core.store_report w r = Ok ()) ->
  waypoints m = PList (PDict <$> dicts) ->
  Core.dispatched (Core.run_mission w a m).1 = Core.dispatched a /\
  Core.perceived (Core.run_mission w a m).1 = Core.perceived a /\
  Core.alerts (Core.run_mission w a m).1 = Core.alerts a /\
  Core.mission_history (Core.run_mission w a m).1
  = (Core.mission_history a ++
     [Core.Report (mission_id m) (mission_name m) "completed" 0 (length dicts) [] []])%list.
Proof.
  intros Hc Hstore Hw.
  unfold Core.run_mission, Core.mission_body. rewrite Hw. simpl.
  destruct (waypoint_loop_offline w m dicts Hc (Core.start_mission a m)
              (Core.MissionData [] [] []) 0) as (Hres & Hd & Ha & Hp).
  pose proof (waypoint_loop_history w m (PDict <$> dicts) (Core.start_mission a m)
                (Core.MissionData [] [] []) 0) as Hh.
  destruct (Core.waypoint_loop _ _ _ _ _ _) as [a1 outcome]. simpl in *. subst outcome.
  unfold Core._complete_mission. rewrite Hw. simpl. rewrite Hstore. simpl.
  rewrite Hh, length_fmap. split_and!; [exact Hd|exact Hp|exact Ha|reflexivity].
Qed.

Lemma mission_without_client_witness :
  Core.dispatched (Core.run_mission Scenarios.offline Examples.ready Examples.survey).1
  = Core.dispatched Examples.ready /\
  Core.perceived (Core.run_mission Scenarios.offline Examples.ready Examples.survey).1
  = Core.perceived Examples.ready /\
  Core.alerts (Core.run_mission Scenarios.offline Examples.ready Examples.survey).1
  = Core.alerts Examples.ready /\
  Core.mission_history (Core.run_mission Scenarios.offline Examples.ready Examples.survey).1
  = (Core.mission_history Examples.ready ++
     [Core.Report (mission_id Examples.survey) (mission_name Examples.survey) "completed" 0
        (length Scenarios.route) [] []])%list.
Proof.
  apply (mission_without_client Scenarios.offline Examples.ready Examples.survey
           Scenarios.route); reflexivity.
Defined.

(** ** The safety tool *)

Lemma and_then_passes_on (first next : Slom.check) :
  passes_on first -> passes_on next -> passes_on (Slom.and_then first next).
Proof.
  intros Hf Hn tool. unfold Slom.and_then.
  destruct (Hf tool) as [[Ht Hg] Hl].
  destruct (first tool) as [t1 [[e|]|x]]; simpl in *; try (split; [split|]; assumption).
  destruct (Hn t1) as [[Ht' Hg'] Hl'].
  split; [split; [now rewrite Ht'|now rewrite Hg']|].
  destruct (next t1) as [t2 [[e|]|x]]; simpl in *; [assumption|..];
    destruct Hl as [Hl|Hl]; destruct_or! Hl'; rewrite ?Hl', ?Hl; auto.
Qed.

Lemma and_then_settles (first next : Slom.check) :
  passes_on first -> settles next -> settles (Slom.and_then first next).
Proof.
  intros Hf Hn tool. unfold Slom.and_then.
  destruct (Hf tool) as [[Ht Hg] Hl].
  destruct (first tool) as [t1 [[e|]|x]]; simpl in *; try (split; [split|]; assumption).
  destruct (Hn t1) as [[Ht' Hg'] Hl'].
  split; [split; [now rewrite Ht'|now rewrite Hg']|].
  destruct (next t1) as [t2 [[e|]|x]]; simpl in *; [assumption..|].
  destruct Hl as [Hl|Hl]; destruct_or! Hl'; rewrite ?Hl', ?Hl; auto.
Qed.

Lemma check_battery_passes_on telemetry : passes_on (Slom.check_battery telemetry).
Proof.
  intros tool. unfold Slom.check_battery.
  destruct (_ ← Py.get telemetry "battery" _; _) as [[[battery []] []]|]; simpl;
    (split; [split; reflexivity|]); auto.
Qed.

Lemma check_signal_passes_on telemetry : passes_on (Slom.check_signal telemetry).
Proof.
  intros tool. unfold Slom.check_signal.
  destruct (_ ← Py.get telemetry "signal_strength" _; _) as [[[signal []] []]|]; simpl;
    (split; [split; reflexivity|]); auto.
Qed.

Lemma check_obstacle_passes_on telemetry : passes_on (Slom.check_obstacle telemetry).
Proof.
  intros tool. unfold Slom.check_obstacle.
  destruct (_ ← Py.get telemetry "obstacle_distance" _; _) as [[distance []]|]; simpl;
    (split; [split; reflexivity|]); auto.
Qed.

Lemma check_temperature_passes_on telemetry : passes_on (Slom.check_temperature telemetry).
Proof.
  intros tool. unfold Slom.check_temperature.
  destruct (_ ← Py.get telemetry "temperature" _; _) as [[[temperature []] []]|]; simpl;
    (split; [split; reflexivity|]); auto.
Qed.

Lemma check_geofence_passes_on position : passes_on (fun tool => Slom._check_geofence tool position).
Proof.
  intros tool. unfold Slom._check_geofence.
  destruct (_ ← Py.item (Slom.geofence tool) "center"; _) as [[[distance radius] max_altitude]|];
    simpl; [|split; [split; reflexivity|]; auto].
  destruct (Py.gt distance radius) as [[]|]; simpl;
    [split; [split; reflexivity|]; auto| |split; [split; reflexivity|]; auto].
  destruct (_ ← Py.get position "z" _; _) as [[altitude []]|]; simpl.
  - destruct (Py.sub max_altitude (PNum 10)); simpl; (split; [split; reflexivity|]); auto.
  - split; [split; reflexivity|]; auto.
  - split; [split; reflexivity|]; auto.
Qed.

Lemma check_geofence_if_enabled_passes_on telemetry :
  passes_on (Slom.check_geofence_if_enabled telemetry).
Proof.
  intros tool. unfold Slom.check_geofence_if_enabled.
  destruct (_ ← Py.item (Slom.geofence tool) "enabled"; _) as [[position|]|]; simpl;
    try (split; [split; reflexivity|]; auto).
  apply (check_geofence_passes_on position tool).
Qed.

Lemma all_clear_settles : settles Slom.all_clear.
Proof. intros tool. simpl. split; [split|]; reflexivity. Qed.

(** The checks of [check_emergency], in their order. *)
Lemma checks_settle (telemetry : pyval) :
  settles (Slom.and_then (Slom.check_battery telemetry)
             (Slom.and_then (Slom.check_signal telemetry)
                (Slom.and_then (Slom.check_obstacle telemetry)
                   (Slom.and_then (Slom.check_geofence_if_enabled telemetry)
                      (Slom.and_then (Slom.check_temperature telemetry) Slom.all_clear))))).
Proof.
  apply and_then_settles; [apply check_battery_passes_on|].
  apply and_then_settles; [apply check_signal_passes_on|].
  apply and_then_settles; [apply check_obstacle_passes_on|].
  apply and_then_settles; [apply check_geofence_if_enabled_passes_on|].
  apply and_then_settles; [apply check_temperature_passes_on|].
  apply all_clear_settles.
Qed.

(** X20.  [check_emergency] never touches the thresholds or the geofence,
    and the safety level it leaves is fixed by what it returns: NORMAL with
    no emergency, EMERGENCY with a critical battery, CRITICAL with a lost
    signal and WARNING with every other emergency.  CAUTION, which a weak
    signal sets, is always overwritten before the check returns; it only
    survives a check that raises, which leaves the level as it was, at
    CAUTION, or at the WARNING of an altitude breach whose target altitude
    could not be computed. *)
Theorem check_emergency_level (tool : Slom.SlomTool) (data : pyval) :
  same_settings tool (Slom.check_emergency tool data).1 /\
  match (Slom.check_emergency tool data).2 with
  | Ok (Some e) => Slom.safety_level (Slom.check_emergency tool data).1 = level_of e
  | Ok None => Slom.safety_level (Slom.check_emergency tool data).1 = Slom.NORMAL
  | Raise _ =>
      Slom.safety_level (Slom.check_emergency tool data).1 = Slom.safety_level tool \/
      Slom.safety_level (Slom.check_emergency tool data).1 = Slom.CAUTION \/
      Slom.safety_level (Slom.check_emergency tool data).1 = Slom.WARNING
  end.
Proof.
  unfold Slom.check_emergency.
  destruct (Py.get data "telemetry" data) as [telemetry|]; simpl;
    [|split; [split; reflexivity|auto]].
  apply checks_settle.
Qed.

Lemma level_of_cases (e : Slom.emergency) :
  level_of e = Slom.EMERGENCY \/ level_of e = Slom.WARNING \/ level_of e = Slom.CRITICAL.
Proof.
  unfold level_of.
  destruct (String.eqb (Slom.type e) "low_battery");
    [destruct (String.eqb (Slom.severity e) "critical")|
     destruct (String.eqb (Slom.type e) "signal_lost")]; auto.
Qed.

(** X21.  The answer of [apply] is consistent: it says safe exactly when
    it holds no emergency, and exactly when the level it reports is
    normal; the level it reports is the one the tool is left at, and it is
    never caution. *)
Theorem apply_safe_iff_normal (tool : Slom.SlomTool) (data : pyval) :
  match (Slom.apply tool data).2 with
  | Ok v =>
      (Slom.safe v = true <-> Slom.found v = None) /\
      (Slom.safe v = true <-> Slom.level v = "normal") /\
      Slom.level v = Slom.value (Slom.safety_level (Slom.apply tool data).1) /\
      Slom.level v <> "caution"
  | Raise e => (Slom.check_emergency tool data).2 = Raise e
  end.
Proof.
  unfold Slom.apply.
  assert (match (Slom.check_emergency tool data).2 with
          | Ok (Some e) => Slom.safety_level (Slom.check_emergency tool data).1 = level_of e
          | Ok None => Slom.safety_level (Slom.check_emergency tool data).1 = Slom.NORMAL
          | Raise _ => True
          end) as Hl.
  { unfold Slom.check_emergency.
    destruct (Py.get data "telemetry" data) as [telemetry|]; simpl; [|exact I].
    destruct (checks_settle telemetry tool) as [_ Hl].
    destruct (Slom.and_then _ _ tool) as [t' [[e|]|x]]; simpl in *; auto. }
  destruct (Slom.check_emergency tool data) as [t' [[e|]|x]]; simpl in *; [..|reflexivity].
  - rewrite Hl. split_and!; [split; discriminate| |reflexivity|].
    + split; [discriminate|]. destruct (level_of_cases e) as [->|[->| ->]]; discriminate.
    + destruct (level_of_cases e) as [->|[->| ->]]; discriminate.
  - rewrite Hl. split_and!; [split; reflexivity|split; reflexivity|reflexivity|discriminate].
Qed.

(** X22.  [action_set_threshold] never adds or removes a threshold: the
    names are the same before and after, an unknown name is refused and
    changes nothing, a known one gets the new value, and no other
    threshold, nor the level or the geofence, is touched. *)
Theorem set_threshold_keeps_names (tool : Slom.SlomTool) (parameter : string) (value : pyval) :
  dom (Slom.thresholds (Slom.action_set_threshold tool parameter value).1)
  = dom (Slom.thresholds tool) /\
  Slom.geofence (Slom.action_set_threshold tool parameter value).1 = Slom.geofence tool /\
  Slom.safety_level (Slom.action_set_threshold tool parameter value).1
  = Slom.safety_level tool /\
  (forall other, other <> parameter ->
     Slom.thresholds (Slom.action_set_threshold tool parameter value).1 !! other
     = Slom.thresholds tool !! other) /\
  match Slom.thresholds tool !! parameter with
  | Some _ =>
      Slom.thresholds (Slom.action_set_threshold tool parameter value).1 !! parameter
      = Some value /\
      Py.get (Slom.action_set_threshold tool parameter value).2 "success" PNone
      = Ok (PBool true)
  | None =>
      (Slom.action_set_threshold tool parameter value).1 = tool /\
      Py.get (Slom.action_set_threshold tool parameter value).2 "success" PNone
      = Ok (PBool false)
  end.
Proof.
  unfold Slom.action_set_threshold.
  destruct (Slom.thresholds tool !! parameter) as [old|] eqn:E; simpl.
  - split_and!; try reflexivity.
    + apply dom_insert_lookup_L. rewrite E. eauto.
    + intros other Hne. apply lookup_insert_ne. congruence.
    + apply lookup_insert_eq.
  - split_and!; reflexivity.
Qed.

Lemma check_emergency_battery_critical (tool : Slom.SlomTool) (data telemetry battery limit : pyval) :
  Py.get data "telemetry" data = Ok telemetry ->
  Py.get telemetry "battery" (PNum 100) = Ok battery ->
  Slom.thresholds tool !! "battery_critical" = Some limit ->
  Py.lt battery limit = Ok true ->
  Slom.check_emergency tool data
  = (Slom.set_level tool Slom.EMERGENCY,
     Ok (Some (Slom.Emergency "low_battery" "critical" (Slom.BatteryCriticalAt battery)
                 "LAND" ∅))).
Proof.
  intros Hd Hb Ht Hlt. unfold Slom.check_emergency. rewrite Hd.
  unfold Slom.and_then at 1. unfold Slom.check_battery, Slom.threshold. rewrite Hb. simpl.
  rewrite Ht. simpl. rewrite Hlt. reflexivity.
Qed.

(** X23.  A critical battery threshold set with [action_set_threshold] is
    the one the next check uses: a battery below the new value is reported
    as a critical low battery with LAND, at level EMERGENCY, before any
    other check is looked at. *)
Theorem raised_battery_threshold (tool : Slom.SlomTool) (data telemetry battery value : pyval) :
  is_Some (Slom.thresholds tool !! "battery_critical") ->
  Py.get data "telemetry" data = Ok telemetry ->
  Py.get telemetry "battery" (PNum 100) = Ok battery ->
  Py.lt battery value = Ok true ->
  let tool' := (Slom.action_set_threshold tool "battery_critical" value).1 in
  Slom.check_emergency tool' data
  = (Slom.set_level tool' Slom.EMERGENCY,
     Ok (Some (Slom.Emergency "low_battery" "critical" (Slom.BatteryCriticalAt battery)
                 "LAND" ∅))).
Proof.
  intros [old Hold] Hd Hb Hlt tool'.
  apply (check_emergency_battery_critical tool' data telemetry battery value Hd Hb); [|exact Hlt].
  unfold tool', Slom.action_set_threshold. rewrite Hold. simpl. apply lookup_insert_eq.
Qed.

Lemma raised_battery_threshold_witness :
  Slom.check_emergency
    (Slom.action_set_threshold Slom.default_tool "battery_critical" (PNum 90)).1
    Examples.healthy
  = (Slom.set_level
       (Slom.action_set_threshold Slom.default_tool "battery_critical" (PNum 90)).1
       Slom.EMERGENCY,
     Ok (Some (Slom.Emergency "low_battery" "critical" (Slom.BatteryCriticalAt (PNum 80))
                 "LAND" ∅))).
Proof.
  apply (raised_battery_threshold Slom.default_tool Examples.healthy
           (PDict {[ "battery" := PNum 80; "position" := Slom.origin ]}) (PNum 80) (PNum 90));
    [vm_compute; eauto|reflexivity|reflexivity|vm_compute; reflexivity].
Defined.

Lemma and_then_type (first next : Slom.check) (avoided : string) :
  (forall tool, match (first tool).2 with
                | Ok (Some e) => Slom.type e <> avoided
                | _ => True
                end) ->
  (forall tool, same_settings tool (first tool).1) ->
  forall fence,
    (forall tool, Slom.geofence tool = fence ->
                  match (next tool).2 with
                  | Ok (Some e) => Slom.type e <> avoided
                  | _ => True
                  end) ->
    forall tool, Slom.geofence tool = fence ->
                 match (Slom.and_then first next tool).2 with
                 | Ok (Some e) => Slom.type e <> avoided
                 | _ => True
                 end.
Proof.
  intros Hf Hs fence Hn tool Hg. unfold Slom.and_then.
  specialize (Hf tool). destruct (Hs tool) as [_ Hg'].
  destruct (first tool) as [t1 [[e|]|x]]; simpl in *; [exact Hf| |exact I].
  apply Hn. congruence.
Qed.

(** X24.  On a fence that is a dictionary [action_disable_geofence]
    succeeds and keeps the thresholds, and once it has run no emergency
    check reports a geofence breach, wherever the position is. *)
Theorem disabled_geofence_never_breached (tool : Slom.SlomTool) (fence : gmap string pyval)
    (data : pyval) :
  Slom.geofence tool = PDict fence ->
  raises (Slom.action_disable_geofence tool).2 = false /\
  Slom.thresholds (Slom.action_disable_geofence tool).1 = Slom.thresholds tool /\
  match (Slom.check_emergency (Slom.action_disable_geofence tool).1 data).2 with
  | Ok (Some e) => Slom.type e <> "geofence_breach"
  | _ => True
  end.
Proof.
  intros Hg. unfold Slom.action_disable_geofence. rewrite Hg. simpl.
  split; [reflexivity|]. split; [reflexivity|].
  set (tool' := Slom.Tool _ _ _).
  unfold Slom.check_emergency.
  destruct (Py.get data "telemetry" data) as [telemetry|]; simpl; [|exact I].
  assert (Slom.geofence tool' = PDict (<["enabled" := PBool false]> fence)) as Hoff
    by reflexivity.
  clearbody tool'. revert tool' Hoff.
  apply and_then_type.
  { intros t. unfold Slom.check_battery.
    destruct (_ ← Py.get telemetry "battery" _; _) as [[[b []] []]|]; simpl;
      first [exact I|discriminate]. }
  { intros t. apply check_battery_passes_on. }
  apply and_then_type.
  { intros t. unfold Slom.check_signal.
    destruct (_ ← Py.get telemetry "signal_strength" _; _) as [[[b []] []]|]; simpl;
      first [exact I|discriminate]. }
  { intros t. apply check_signal_passes_on. }
  apply and_then_type.
  { intros t. unfold Slom.check_obstacle.
    destruct (_ ← Py.get telemetry "obstacle_distance" _; _) as [[b []]|]; simpl;
      first [exact I|discriminate]. }
  { intros t. apply check_obstacle_passes_on. }
  intros t Ht. unfold Slom.and_then at 1. unfold Slom.check_geofence_if_enabled.
  rewrite Ht. simpl. rewrite lookup_insert_eq. simpl.
  unfold Slom.and_then, Slom.check_temperature.
  destruct (_ ← Py.get telemetry "temperature" _; _) as [[[b []] []]|]; simpl;
    first [exact I|discriminate].
Qed.

Lemma disabled_geofence_never_breached_witness :
  raises (Slom.action_disable_geofence Slom.default_tool).2 = false /\
  Slom.thresholds (Slom.action_disable_geofence Slom.default_tool).1
  = Slom.thresholds Slom.default_tool /\
  match (Slom.check_emergency (Slom.action_disable_geofence Slom.default_tool).1
           Examples.outside).2 with
  | Ok (Some e) => Slom.type e <> "geofence_breach"
  | _ => True
  end.
Proof.
  apply (disabled_geofence_never_breached Slom.default_tool
           {[ "enabled" := PBool true; "center" := Slom.origin;
              "radius" := PNum 500; "max_altitude" := PNum 120 ]} Examples.outside).
  reflexivity.
Defined.



(** ** The short-term memory *)

Lemma tail_drop {X : Type} (l : list X) : tail l = drop 1 l.
Proof. destruct l; reflexivity. Qed.

(** Appending to the newest [c] entries of a list leaves the newest [c]
    entries of the longer list. *)
Lemma deque_append_newest {X : Type} (c : nat) (l : list X) (x : X) :
  Memory.deque_append c (drop (length l - c) l) x
  = drop (length (l ++ [x]) - c) (l ++ [x]).
Proof.
  unfold Memory.deque_append. rewrite !length_app, length_drop. simpl length.
  destruct (Nat.le_gt_cases (length l) c) as [Hle|Hgt].
  - replace (length l - c) with 0 by lia. rewrite Nat.sub_0_r. simpl drop.
    destruct (Nat.ltb_spec c (length l + 1)) as [Hfull|Hroom].
    + replace (length l + 1 - c) with 1 by lia. apply tail_drop.
    + replace (length l + 1 - c) with 0 by lia. reflexivity.
  - replace (length l - (length l - c) + 1) with (c + 1) by lia.
    destruct (Nat.ltb_spec c (c + 1)) as [_|Hno]; [|lia].
    replace (length l + 1 - c) with ((length l - c) + 1) by lia.
    rewrite <- drop_drop, drop_app_le by lia. apply tail_drop.
Qed.

Lemma add_all_snoc {A T : Type} (m : Memory.ShortTermMemory A T) entries data now :
  Memory.add_all m (entries ++ [(data, now)]) = Memory.add (Memory.add_all m entries) data now.
Proof. unfold Memory.add_all. rewrite fold_left_app. reflexivity. Qed.

(** X26.  The short-term memory is a bounded queue: after any run of
    [add] on a memory within its capacity, it holds exactly the newest
    [capacity] of the records it held and was given, oldest first, never
    more than [capacity] of them, with one time stamp for each; a memory
    of capacity 0 stays empty. *)
Theorem memory_keeps_newest {A T : Type} (m : Memory.ShortTermMemory A T)
    (entries : list (A * T)) :
  length (Memory.memory m) <= Memory.capacity m ->
  length (Memory.timestamps m) = length (Memory.memory m) ->
  let records := (Memory.memory m ++ (fst <$> entries))%list in
  Memory.capacity (Memory.add_all m entries) = Memory.capacity m /\
  Memory.get_all (Memory.add_all m entries)
  = drop (length records - Memory.capacity m) records /\
  length (Memory.get_all (Memory.add_all m entries))
  = Nat.min (length records) (Memory.capacity m) /\
  length (Memory.timestamps (Memory.add_all m entries))
  = length (Memory.get_all (Memory.add_all m entries)).
Proof.
  intros Hlen Htimes records. unfold Memory.get_all.
  assert (Memory.capacity (Memory.add_all m entries) = Memory.capacity m /\
          Memory.memory (Memory.add_all m entries)
          = drop (length records - Memory.capacity m) records /\
          Memory.timestamps (Memory.add_all m entries)
          = drop (length (Memory.timestamps m ++ (snd <$> entries)) - Memory.capacity m)
              (Memory.timestamps m ++ (snd <$> entries))) as (Hc & Hm & Ht).
  { unfold records. clear records.
    induction entries as [|[data now] entries IH] using rev_ind.
    - simpl. rewrite !app_nil_r.
      replace (length (Memory.memory m) - Memory.capacity m) with 0 by lia.
      replace (length (Memory.timestamps m) - Memory.capacity m) with 0 by lia.
      split_and!; reflexivity.
    - destruct IH as (Hc & Hm & Ht).
      rewrite add_all_snoc, !fmap_app, !app_assoc. simpl.
      unfold Memory.add. simpl. rewrite Hc, Hm, Ht.
      split_and!; [reflexivity|apply deque_append_newest..]. }
  split_and!; [exact Hc|exact Hm| |].
  - rewrite Hm, length_drop.
    destruct (Nat.le_gt_cases (length records) (Memory.capacity m));
      [rewrite Nat.min_l|rewrite Nat.min_r]; lia.
  - rewrite Hm, Ht. unfold records. rewrite !length_drop, !length_app, !length_fmap. lia.
Qed.

Lemma memory_keeps_newest_witness :
  Memory.capacity (Memory.add_all (Memory.new nat nat 2) [(1, 10); (2, 20); (3, 30)]) = 2 /\
  Memory.get_all (Memory.add_all (Memory.new nat nat 2) [(1, 10); (2, 20); (3, 30)]) = [2; 3] /\
  length (Memory.get_all (Memory.add_all (Memory.new nat nat 2) [(1, 10); (2, 20); (3, 30)]))
  = 2 /\
  length (Memory.timestamps (Memory.add_all (Memory.new nat nat 2) [(1, 10); (2, 20); (3, 30)]))
  = length (Memory.get_all (Memory.add_all (Memory.new nat nat 2) [(1, 10); (2, 20); (3, 30)])).
Proof.
  apply (memory_keeps_newest (Memory.new nat nat 2) [(1, 10); (2, 20); (3, 30)]);
    [simpl; lia|reflexivity].
Defined.

Lemma slice_from_suffix {X : Type} (start : Z) (l : list X) :
  exists older, l = (older ++ slice_from start l)%list.
Proof.
  unfold slice_from. eexists. symmetry. apply take_drop.
Qed.

(** X27.  [get_recent n] returns the newest records, oldest first: the
    [n] newest for a positive [n], or all of them when there are fewer;
    but for [n = 0] it returns every record, not none, and for a negative
    [n] it drops the [-n] oldest records and returns the rest. *)
Theorem get_recent_counts {A T : Type} (m : Memory.ShortTermMemory A T) (n : Z) :
  (exists older, Memory.memory m = (older ++ Memory.get_recent m n)%list) /\
  length (Memory.get_recent m n)
  = (if (0 <? n)%Z then Nat.min (Z.to_nat n) (length (Memory.memory m))
     else length (Memory.memory m) - Z.to_nat (- n)).
Proof.
  split; [apply slice_from_suffix|].
  unfold Memory.get_recent, slice_from. rewrite length_drop.
  destruct (Z.ltb_spec 0 n), (Z.ltb_spec (- n) 0); lia.
Qed.

(** ** The metrics of a tool *)

Lemma execute_counts {State : Type}
    (actions : string -> option (gmap string pyval -> State -> State * result pyval))
    (tool : BaseTool.Tool State) action params :
  let tool' := (BaseTool.execute actions tool action params).1 in
  BaseTool.calls tool' = S (BaseTool.calls tool) /\
  BaseTool.errors tool' + length (BaseTool.operation_history tool')
  = S (BaseTool.errors tool + length (BaseTool.operation_history tool)) /\
  BaseTool.errors tool <= BaseTool.errors tool' /\
  BaseTool.operation_history tool `prefix_of` BaseTool.operation_history tool'.
Proof.
  unfold BaseTool.execute.
  destruct (actions action) as [method|]; simpl.
  - destruct (method _ _) as [inner' [answer|e]]; simpl.
    + rewrite length_app. simpl. split_and!; [reflexivity|lia|lia|apply prefix_app_r; reflexivity].
    + split_and!; [reflexivity|lia|lia|reflexivity].
  - rewrite length_app. simpl. split_and!; [reflexivity|lia|lia|apply prefix_app_r; reflexivity].
Qed.

(** X28.  The metrics of a tool add up: over any run of [execute], every
    request is counted as a call, and each one is either recorded in the
    operation history or counted as an error, never both and never
    neither; an unsupported action is recorded, not counted as an error.
    The history only grows. *)
Theorem execute_accounting {State : Type}
    (actions : string -> option (gmap string pyval -> State -> State * result pyval))
    (tool : BaseTool.Tool State) (requests : list (string * option (gmap string pyval))) :
  let tool' := BaseTool.execute_all actions tool requests in
  BaseTool.calls tool' = BaseTool.calls tool + length requests /\
  BaseTool.errors tool' + length (BaseTool.operation_history tool')
  = BaseTool.errors tool + length (BaseTool.operation_history tool) + length requests /\
  BaseTool.errors tool <= BaseTool.errors tool' /\
  BaseTool.operation_history tool `prefix_of` BaseTool.operation_history tool' /\
  (forall action params,
     actions action = None ->
     BaseTool.errors (BaseTool.execute actions tool action params).1 = BaseTool.errors tool).
Proof.
  simpl. split_and!.
  1-4: revert tool; induction requests as [|[action params] requests IH]; intros tool; simpl;
    try (first [lia|reflexivity]);
    destruct (execute_counts actions tool action params) as (Hc & He & Hle & Hp);
    unfold BaseTool.execute_all in *; simpl in *.
  - rewrite IH, Hc. lia.
  - rewrite IH, He. lia.
  - etrans; [exact Hle|apply IH].
  - etrans; [exact Hp|apply IH].
  - intros action params Hnone. unfold BaseTool.execute. rewrite Hnone. reflexivity.
Qed.

(** ** Missions in simulation *)

Lemma among_cons (v : pyval) (name : string) (names : list string) :
  Py.among v (name :: names) = Py.among v [name] || Py.among v names.
Proof.
  destruct v as [| | |s| |]; simpl; try reflexivity.
  rewrite <- bool_decide_or. apply bool_decide_ext.
  rewrite elem_of_cons, list_elem_of_singleton. reflexivity.
Qed.

Lemma simulate_goto render position params :
  (Sim._simulate_command render position (PStr "GOTO", params)).2 = Sim.done (PStr "GOTO").
Proof. reflexivity. Qed.

Lemma simulator_accepts render readings : accepts (Sim.client render readings).
Proof.
  intros history params. exists (Sim.done (PStr "GOTO")), (PBool true).
  split_and!; reflexivity.
Qed.

(** X29.  In simulation mode the client carries out exactly TAKEOFF, LAND,
    GOTO, HOVER and RTL, whatever the parameters and the position, and
    refuses every other command without moving; so a mission over a list
    of waypoint dictionaries flown against it, with a storage that keeps
    the report and no emergency stop, always completes with every waypoint
    counted. *)
Theorem simulated_mission_completes (render : pyval -> string) (readings : nat -> result pyval)
    (w : Core.Collaborators) (a : Core.Agent) (m : MissionParams)
    (dicts : list (gmap string pyval)) :
  Core.client w = Some (Sim.client render readings) ->
  (forall k, Core.emergency_stop_requested w k = false) ->
  (forall r, Core.store_report w r = Ok ()) ->
  waypoints m = PList (PDict <$> dicts) ->
  (forall position c,
     Py.get (Sim._simulate_command render position c).2 "success" PNone
     = Ok (PBool (Py.among (fst c) ["TAKEOFF"; "LAND"; "GOTO"; "HOVER"; "RTL"])) /\
     (Py.among (fst c) ["TAKEOFF"; "LAND"; "GOTO"; "HOVER"; "RTL"] = false ->
      (Sim._simulate_command render position c).1 = position)) /\
  exists r,
    Core.mission_history (Core.run_mission w a m).1 = (Core.mission_history a ++ [r])%list /\
    Core.status r = "completed" /\
    Core.waypoints_completed r = length dicts /\
    Core.total_waypoints r = length dicts.
Proof.
  intros Hc Hquiet Hstore Hw. split.
  - intros position [command params]. unfold Sim._simulate_command. simpl.
    rewrite (among_cons command "TAKEOFF" ["LAND"; "GOTO"; "HOVER"; "RTL"]),
      (among_cons command "LAND" ["GOTO"; "HOVER"; "RTL"]),
      (among_cons command "GOTO" ["HOVER"; "RTL"]),
      (among_cons command "HOVER" ["RTL"]).
    destruct (Py.among command ["TAKEOFF"]), (Py.among command ["LAND"]),
      (Py.among command ["GOTO"]), (Py.among command ["HOVER"]),
      (Py.among command ["RTL"]); simpl; split; first [reflexivity|discriminate].
  - unfold Core.run_mission, Core.mission_body. rewrite Hw. simpl.
    destruct (waypoint_loop_all_reached w m _ dicts Hc (simulator_accepts render readings)
                Hquiet (Core.start_mission a m) (Core.MissionData [] [] []) 0)
      as (data & Hres & Hd & Hcd & Hed & Hld); [discriminate|].
    pose proof (waypoint_loop_history w m (PDict <$> dicts) (Core.start_mission a m)
                  (Core.MissionData [] [] []) 0) as Hh.
    destruct (Core.waypoint_loop _ _ _ _ _ _) as [a1 outcome]. simpl in *. subst outcome.
    unfold Core._complete_mission. rewrite Hw. simpl. rewrite Hstore. simpl.
    eexists. split; [rewrite Hh; reflexivity|]. simpl.
    rewrite Hcd, !length_fmap. split_and!; reflexivity.
Qed.

Lemma simulated_mission_completes_witness :
  (forall position c,
     Py.get (Sim._simulate_command (fun _ => "?") position c).2 "success" PNone
     = Ok (PBool (Py.among (fst c) ["TAKEOFF"; "LAND"; "GOTO"; "HOVER"; "RTL"])) /\
     (Py.among (fst c) ["TAKEOFF"; "LAND"; "GOTO"; "HOVER"; "RTL"] = false ->
      (Sim._simulate_command (fun _ => "?") position c).1 = position)) /\
  exists r,
    Core.mission_history (Core.run_mission Scenarios.in_simulation Examples.ready
                            Examples.survey).1
    = (Core.mission_history Examples.ready ++ [r])%list /\
    Core.status r = "completed" /\
    Core.waypoints_completed r = length Scenarios.route /\
    Core.total_waypoints r = length Scenarios.route.
Proof.
  apply (simulated_mission_completes (fun _ => "?") (fun _ => Ok (PDict ∅))
           Scenarios.in_simulation Examples.ready Examples.survey Scenarios.route);
    reflexivity.
Defined.

(** ** The score of a decision *)

(** X30.  [evaluate_decision] scores every decision between 0.5 and 1.0;
    the cap at 1.0 never cuts anything off, since the highest score the
    sum can reach is exactly 1.0, which only a critical decision with a
    reason and non-empty parameters gets. *)
Theorem evaluate_decision_range (d : decision) :
  (0.5 <=? DecisionMaker.evaluate_decision d)%float = true /\
  (DecisionMaker.evaluate_decision d <=? 1)%float = true /\
  ((DecisionMaker.evaluate_decision d =? 1)%float
   = String.eqb (priority d) "critical" && DecisionMaker.has_reason d
     && DecisionMaker.has_params d).
Proof.
  unfold DecisionMaker.evaluate_decision.
  destruct (String.eqb (priority d) "critical"), (String.eqb (priority d) "high"),
    (DecisionMaker.has_reason d), (DecisionMaker.has_params d);
    vm_compute; split_and!; reflexivity.
Qed.
